(** * HTTP/1.1 pipelining strategy ([src/http/1.1/strategies/Pipeline.js])

    A shallow embedding of the [Pipeline] class and the properties of its
    queue of in-flight requests.

    The class is stateful and talks to objects it does not own (the byte
    parser, the uWebSockets response of a proxied request, body streams,
    user callbacks, the clock).  The embedding is a state-and-exception
    monad over the fields of the class:
    - the queue [_pendingRequests] is a list of records, head first;
    - a JavaScript [throw] is the outcome [Throw], which keeps the state
      reached when the exception left the method;
    - every call that leaves the class (a callback, [tryEnd], a stream's
      [push] or [destroy], [parser.feed]) is appended to a trace, in call
      order, with the arguments it was given;
    - what the outside answers ([process.hrtime()], [getWriteOffset()],
      the pair returned by [tryEnd]) is an argument of the operation that
      asks for it;
    - [abOffset] and the [onWritable] handler live on the uWebSockets
      response, an object shared by every chunk relayed to it: the state
      keeps them in a finite map keyed by that object's identity;
    - [process.nextTick] is a FIFO of deferred tasks;
    - a record that [shift()] took off the array is still an object,
      with everything that was written to it, for whoever holds a
      reference to it ([terminateRequest] returns one, [toArray()] gives
      some away): the state keeps these objects in [shifted], oldest
      first, in the state the pipeline left them;
    - numbers that the source computes in floating point (the duration)
      are IEEE 754 doubles, with the operations of [SpecFloat].

    Callbacks are opaque: a call to one is recorded, and the callback is
    taken to return without calling back into the pipeline. *)

From Stdlib Require Import ZArith List Bool Lia.
From Stdlib Require SpecFloat.
From stdpp Require Import base option list gmap strings.

Local Open Scope Z_scope.

(** ** Values *)

(** A [Buffer]: a sequence of bytes; [data.length] is its length. *)
Definition Buffer := list Byte.byte.

(** The errors the class creates or provokes.  [E_PIPELINE_OVERFLOW] and
    [E_PIPELINE_ABORTED] are [Error] objects whose [code] property is set
    by the class; [TypeError] is what the engine throws when a property is
    read from [undefined]. *)
Inductive JsError :=
| E_PIPELINE_OVERFLOW
| E_PIPELINE_ABORTED
| TypeError.

Definition error_message (e : JsError) : string :=
  match e with
  | E_PIPELINE_OVERFLOW => "Too many requests in the pipeline!"
  | E_PIPELINE_ABORTED => "Request aborted"
  | TypeError => "Cannot read properties of undefined"
  end.

Definition error_code (e : JsError) : option string :=
  match e with
  | E_PIPELINE_OVERFLOW => Some "E_PIPELINE_OVERFLOW"
  | E_PIPELINE_ABORTED => Some "E_PIPELINE_ABORTED"
  | TypeError => None
  end.

(** [process.hrtime()] : the pair [seconds, nanoseconds]. *)
Definition HrTime := (Z * Z)%type.

(** [process.hrtime(start)] called when the clock reads [now]: the
    difference, with the nanoseconds borrowed from the seconds. *)
Definition hrtime_since (now start : HrTime) : HrTime :=
  let sec := fst now - fst start in
  let nsec := snd now - snd start in
  if nsec <? 0 then (sec - 1, nsec + 1000000000) else (sec, nsec).

(** A JavaScript number is a double (IEEE 754 binary64).  [number z] is
    the double an integer is stored as: the nearest one, [z] itself
    below 2^53. *)
Definition number (z : Z) : SpecFloat.spec_float :=
  SpecFloat.binary_normalize 53 1024 z 0 false.

(** [hrduration[0] * 1e3 + hrduration[1] / 1e6] in double arithmetic:
    the product, the quotient and the sum are each rounded to the
    nearest double, ties to even. *)
Definition milliseconds (hrduration : HrTime) : SpecFloat.spec_float :=
  SpecFloat.SFadd 53 1024
    (SpecFloat.SFmul 53 1024 (number (fst hrduration)) (number 1000))
    (SpecFloat.SFdiv 53 1024 (number (snd hrduration)) (number 1000000)).

(** Identities of the objects the class only holds references to. *)
Definition Callback := nat.
Definition StreamRef := nat.
Definition UwsRef := nat.

(** The header object handed over by the parser: string keys. *)
Abbreviation Headers := (gmap string string).

(** The request given to [scheduleSend].  The class reads two of its
    properties: [request.response], the uWebSockets response the body is
    relayed to when the request is proxied, and [request.body], the
    request's own body stream. *)
Record Request := mkRequest {
  req_tag : nat;
  req_response : option UwsRef;
  req_body : option StreamRef
}.

(** [response.metadata].  [bytes] is a count of bytes: JavaScript adds
    such integers exactly as long as they stay below 2^53, and the
    counter is an unbounded integer here. *)
Record Metadata := mkMetadata {
  startTime : HrTime;
  bytes : Z;
  headersTime : option HrTime;
  duration : option SpecFloat.spec_float
}.

(** The [response] object built by [scheduleSend].  [body] is a property
    the literal does not define (its line is commented out in the
    source), so it is [None] (that is, [undefined]) unless somebody
    else attached a stream to the object. *)
Record Response := mkResponse {
  request : Request;
  body : option StreamRef;
  headers : Headers;
  statusCode : option Z;
  statusMessage : string;
  metadata : Metadata
}.

Record PipelinedRequest := mkPipelinedRequest {
  response : Response;
  callback : Callback
}.

(** ** Calls that leave the class *)

Inductive Event :=
| Accepted (cb : Callback) (pending : list PipelinedRequest)
    (* [callback()] at the end of [scheduleSend]; [pending] is the queue
       as it is when the call is made *)
| Responded (cb : Callback) (err : option JsError) (res : Response)
    (* [pipelinedRequest.callback(err, response)] *)
| TryEnd (uws : UwsRef) (data : Buffer) (totalSize : option string)
    (* [uwsResponse.tryEnd(data, headers['content-length'])] *)
| Push (stream : StreamRef) (data : Buffer)
    (* [body.push(data)] *)
| Destroy (stream : StreamRef) (err : option JsError)
    (* [body.destroy(err)] and [body.destroy()] *)
| Feed (chunk : Buffer).
    (* [parser.feed(chunk)] *)

(** ** State *)

(** The arrow function given to [uwsResponse.onWritable]: a closure over
    [data] and [headers] (and over [uwsResponse], the key it is stored
    under). *)
Record WritableHandler := mkWritableHandler {
  wh_data : Buffer;
  wh_headers : Headers
}.

(** What the class keeps on a uWebSockets response. *)
Record UwsResponse := mkUwsResponse {
  abOffset : option Z;
  onWritable : option WritableHandler
}.

Definition uws_untouched : UwsResponse :=
  {| abOffset := None; onWritable := None |}.

Record State := mkState {
  _maxRequests : Z;
  _pendingRequests : list PipelinedRequest;
  uwsResponses : gmap UwsRef UwsResponse;
  nextTick : list (Buffer * bool);
  shifted : list PipelinedRequest;
  trace : list Event
}.

(** [new Pipeline(parser, {maxRequests})]. *)
Definition constructor (maxRequests : Z) : State :=
  {| _maxRequests := maxRequests;
     _pendingRequests := [];
     uwsResponses := ∅;
     nextTick := [];
     shifted := [];
     trace := [] |}.

(** [new Pipeline(parser)]: [maxRequests] defaults to [1000]. *)
Definition constructor_default : State := constructor 1000.

(** ** The monad of methods *)

Inductive Outcome (A : Type) :=
| Return (a : A) (s : State)
| Throw (e : JsError) (s : State).
Arguments Return {A} a s.
Arguments Throw {A} e s.

Definition M (A : Type) : Type := State -> Outcome A.

Definition ret {A} (a : A) : M A := fun s => Return a s.

Definition bind {A B} (m : M A) (k : A -> M B) : M B :=
  fun s =>
    match m s with
    | Return a s' => k a s'
    | Throw e s' => Throw e s'
    end.

Definition throw {A} (e : JsError) : M A := fun s => Throw e s.

Notation "x <- m ;; k" := (bind m (fun x => k))
  (at level 100, m at next level, right associativity).
Notation "m ;;; k" := (bind m (fun _ => k))
  (at level 100, right associativity).

Definition get : M State := fun s => Return s s.

Definition emit (e : Event) : M unit :=
  fun s => Return tt
    {| _maxRequests := _maxRequests s;
       _pendingRequests := _pendingRequests s;
       uwsResponses := uwsResponses s;
       nextTick := nextTick s;
       shifted := shifted s;
       trace := trace s ++ [e] |}.

Definition set_pending (q : list PipelinedRequest) : M unit :=
  fun s => Return tt
    {| _maxRequests := _maxRequests s;
       _pendingRequests := q;
       uwsResponses := uwsResponses s;
       nextTick := nextTick s;
       shifted := shifted s;
       trace := trace s |}.

Definition set_uws (u : UwsRef) (r : UwsResponse) : M unit :=
  fun s => Return tt
    {| _maxRequests := _maxRequests s;
       _pendingRequests := _pendingRequests s;
       uwsResponses := <[u := r]> (uwsResponses s);
       nextTick := nextTick s;
       shifted := shifted s;
       trace := trace s |}.

Definition set_shifted (q : list PipelinedRequest) : M unit :=
  fun s => Return tt
    {| _maxRequests := _maxRequests s;
       _pendingRequests := _pendingRequests s;
       uwsResponses := uwsResponses s;
       nextTick := nextTick s;
       shifted := q;
       trace := trace s |}.

Definition set_nextTick (t : list (Buffer * bool)) : M unit :=
  fun s => Return tt
    {| _maxRequests := _maxRequests s;
       _pendingRequests := _pendingRequests s;
       uwsResponses := uwsResponses s;
       nextTick := t;
       shifted := shifted s;
       trace := trace s |}.

(** The state an outcome ends in, whether the method returned or threw. *)
Definition final {A} (o : Outcome A) : State :=
  match o with
  | Return _ s => s
  | Throw _ s => s
  end.

Definition threw {A} (o : Outcome A) : option JsError :=
  match o with
  | Return _ _ => None
  | Throw e _ => Some e
  end.

(** ** Methods of [Pipeline] *)

(** [acceptsMoreRequests()] *)
Definition acceptsMoreRequests (s : State) : bool :=
  (_maxRequests s =? 0)
  || (Z.of_nat (length (_pendingRequests s)) <? _maxRequests s).

(** [size()] *)
Definition size (s : State) : Z := Z.of_nat (length (_pendingRequests s)).

(** [toArray()]: a copy of the queue. *)
Definition toArray (s : State) : list PipelinedRequest := _pendingRequests s.

(** [scheduleSend(request, responseCallback, callback)]; [now] is what
    [process.hrtime()] returns while the record is built. *)
Definition scheduleSend (req : Request) (responseCallback callback : Callback)
    (now : HrTime) : M unit :=
  s <- get ;;
  if (0 <? _maxRequests s)
     && (_maxRequests s <=? Z.of_nat (length (_pendingRequests s)))
  then throw E_PIPELINE_OVERFLOW
  else
    let pipelinedRequest :=
      {| response :=
           {| request := req;
              body := None;
              headers := ∅;
              statusCode := None;
              statusMessage := "";
              metadata :=
                {| startTime := now;
                   bytes := 0;
                   headersTime := None;
                   duration := None |} |};
         callback := responseCallback |} in
    set_pending (_pendingRequests s ++ [pipelinedRequest]) ;;;
    s' <- get ;;
    emit (Accepted callback (_pendingRequests s')).

(** [handleSocketDataChunk(chunk)] *)
Definition handleSocketDataChunk (chunk : Buffer) : M unit :=
  emit (Feed chunk).

(** [peek()]: the first-in record, [undefined] ([None]) on an empty
    queue. *)
Definition peek : M (option PipelinedRequest) :=
  s <- get ;;
  match _pendingRequests s with
  | first :: _ => ret (Some first)
  | [] => ret None
  end.

(** Assignment to a property of the object [peek()] returned: that object
    is the first element of the queue, so the element is replaced. *)
Definition update_first (f : PipelinedRequest -> PipelinedRequest) : M unit :=
  s <- get ;;
  match _pendingRequests s with
  | first :: rest => set_pending (f first :: rest)
  | [] => ret tt
  end.

Definition with_metadata (f : Metadata -> Metadata) (p : PipelinedRequest)
    : PipelinedRequest :=
  {| response :=
       {| request := request (response p);
          body := body (response p);
          headers := headers (response p);
          statusCode := statusCode (response p);
          statusMessage := statusMessage (response p);
          metadata := f (metadata (response p)) |};
     callback := callback p |}.

Definition add_bytes (count : Z) (m : Metadata) : Metadata :=
  {| startTime := startTime m;
     bytes := bytes m + count;
     headersTime := headersTime m;
     duration := duration m |}.

Definition stamp_headersTime (t : HrTime) (m : Metadata) : Metadata :=
  {| startTime := startTime m;
     bytes := bytes m;
     headersTime := Some t;
     duration := duration m |}.

Definition stamp_duration (d : SpecFloat.spec_float) (m : Metadata)
    : Metadata :=
  {| startTime := startTime m;
     bytes := bytes m;
     headersTime := headersTime m;
     duration := Some d |}.

(** [addByteCount(count)].  [this.peek().response.metadata] reads a
    property of [undefined] when the queue is empty; the test that
    follows is on the metadata object, which a record always has. *)
Definition addByteCount (count : Z) : M unit :=
  first <- peek ;;
  match first with
  | None => throw TypeError
  | Some _ => update_first (with_metadata (add_bytes count))
  end.

(** [data.subarray(begin)]: a negative [begin] counts from the end, and
    the index is clamped to the buffer. *)
Definition subarray (data : Buffer) (begin : Z) : Buffer :=
  let len := Z.of_nat (length data) in
  let from := if begin <? 0 then Z.max (len + begin) 0 else Z.min begin len in
  drop (Z.to_nat from) data.

(** What the uWebSockets response answers during one [addBody]:
    [getWriteOffset()] and the pair [[ok, done]] of [tryEnd]. *)
Record UwsAnswer := mkUwsAnswer {
  writeOffset : Z;
  tryEnd_ok : bool;
  tryEnd_done : bool
}.

Definition uws_of (s : State) (u : UwsRef) : UwsResponse :=
  default uws_untouched (uwsResponses s !! u).

(** [addBody(data)] *)
Definition addBody (data : Buffer) (answer : UwsAnswer) : M unit :=
  first <- peek ;;
  match first with
  | None => throw TypeError
  | Some first =>
    let pipelinedRequest := response first in
    addByteCount (Z.of_nat (length data)) ;;;
    match req_response (request pipelinedRequest) with
    | Some uwsResponse =>
      let headers := headers pipelinedRequest in
      let lastOffset := writeOffset answer in
      (* inside [uwsResponse.cork] *)
      emit (TryEnd uwsResponse data (headers !! "content-length")) ;;;
      if tryEnd_done answer then ret tt
      else if negb (tryEnd_ok answer) then
        s <- get ;;
        set_uws uwsResponse
          {| abOffset := Some lastOffset;
             onWritable := onWritable (uws_of s uwsResponse) |} ;;;
        set_uws uwsResponse
          {| abOffset := Some lastOffset;
             onWritable :=
               Some {| wh_data := data; wh_headers := headers |} |}
      else ret tt
    | None =>
      match body pipelinedRequest with
      | Some stream => emit (Push stream data)
      | None => throw TypeError
      end
    end
  end.

(** The uWebSockets response calls the handler registered with
    [onWritable], passing the offset it can resume at; [ok] and [done]
    are what [tryEnd] answers to the retry.  The result is the value the
    handler returns, [None] when no handler is registered. *)
Definition writable (uwsResponse : UwsRef) (offset : Z) (ok done : bool)
    : M (option bool) :=
  s <- get ;;
  match onWritable (uws_of s uwsResponse) with
  | None => ret None
  | Some handler =>
    let rest :=
      match abOffset (uws_of s uwsResponse) with
      | Some saved => subarray (wh_data handler) (offset - saved)
      | None => wh_data handler  (* [offset - undefined] is [NaN]: index 0 *)
      end in
    emit (TryEnd uwsResponse rest (wh_headers handler !! "content-length")) ;;;
    ret (Some ok)
  end.

(** [setStatus(statusCode, statusMessage)] *)
Definition setStatus (code : Z) (message : string) : M unit :=
  update_first (fun p =>
    {| response :=
         {| request := request (response p);
            body := body (response p);
            headers := headers (response p);
            statusCode := Some code;
            statusMessage := message;
            metadata := metadata (response p) |};
       callback := callback p |}).

(** [setHeaders(headers)]; [now] is [process.hrtime()]. *)
Definition setHeaders (hs : Headers) (now : HrTime) : M unit :=
  update_first (fun p =>
    {| response :=
         {| request := request (response p);
            body := body (response p);
            headers := hs;
            statusCode := statusCode (response p);
            statusMessage := statusMessage (response p);
            metadata := stamp_headersTime now (metadata (response p)) |};
       callback := callback p |}).

(** [terminateRequest()]; [now] is the clock when
    [process.hrtime(startTime)] is called.  Returns the record taken off
    the queue, [undefined] ([None]) when the queue is empty.  The
    duration is written to the object [shift()] returned, which is no
    longer in the array: the object goes to [shifted] as the method
    leaves it. *)
Definition terminateRequest (now : HrTime) : M (option PipelinedRequest) :=
  s <- get ;;
  match _pendingRequests s with
  | data :: rest =>
    set_pending rest ;;;
    let hrduration := hrtime_since now (startTime (metadata (response data))) in
    let data := with_metadata (stamp_duration (milliseconds hrduration)) data in
    set_shifted (shifted s ++ [data]) ;;;
    ret (Some data)
  | [] => ret None
  end.

(** The body of the [forEach] in [close()], for one record. *)
Definition abort (pipelinedRequest : PipelinedRequest) : M unit :=
  let err := E_PIPELINE_ABORTED in
  emit (Responded (callback pipelinedRequest) (Some err)
          (response pipelinedRequest)) ;;;
  match body (response pipelinedRequest) with
  | Some stream => emit (Destroy stream (Some err))
  | None => throw TypeError
  end ;;;
  match req_body (request (response pipelinedRequest)) with
  | Some stream => emit (Destroy stream None)
  | None => ret tt
  end.

Fixpoint forEach {A} (f : A -> M unit) (l : list A) : M unit :=
  match l with
  | [] => ret tt
  | x :: rest => f x ;;; forEach f rest
  end.

(** [close()] *)
Definition close : M unit :=
  s <- get ;;
  forEach abort (_pendingRequests s) ;;;
  set_pending [].

(** ** The parser's events *)

(** The ['headers'] listener.  [expectedBodySize] is the parser's
    property when the event fires ([None]: not a number); [tHeaders] and
    [tEnd] are the clock in [setHeaders] and in [terminateRequest]. *)
Definition on_headers (code : Z) (message : string) (hs : Headers)
    (expectedBodySize : option Z) (tHeaders tEnd : HrTime) : M unit :=
  setStatus code message ;;;
  setHeaders hs tHeaders ;;;
  match expectedBodySize with
  | Some 0 => terminateRequest tEnd ;;; ret tt
  | _ => ret tt
  end.

(** The ['body_chunk'] listener: the work is deferred with
    [process.nextTick]. *)
Definition on_body_chunk (chunk : Buffer) (isLast : bool) : M unit :=
  s <- get ;;
  set_nextTick (nextTick s ++ [(chunk, isLast)]).

(** The function deferred by the ['body_chunk'] listener. *)
Definition body_chunk_task (chunk : Buffer) (isLast : bool)
    (answer : UwsAnswer) (now : HrTime) : M unit :=
  addBody chunk answer ;;;
  if isLast then terminateRequest now ;;; ret tt else ret tt.

(** The event loop runs the oldest deferred function; an exception it
    throws is uncaught. *)
Definition run_nextTick (answer : UwsAnswer) (now : HrTime) : M unit :=
  s <- get ;;
  match nextTick s with
  | [] => ret tt
  | (chunk, isLast) :: later =>
    set_nextTick later ;;;
    body_chunk_task chunk isLast answer now
  end.

(** ** What is read off a trace *)

(** The completion-callback calls of a trace, oldest first. *)
Fixpoint responded (t : list Event)
    : list (Callback * option JsError * Response) :=
  match t with
  | [] => []
  | Responded cb err res :: later => (cb, err, res) :: responded later
  | _ :: later => responded later
  end.

(** How many times the completion callback [cb] was called. *)
Definition invocations (cb : Callback) (t : list Event) : nat :=
  length (filter (fun call => fst (fst call) = cb) (responded t)).

(** The acknowledgement-callback calls of a trace. *)
Fixpoint accepted (t : list Event) : list Callback :=
  match t with
  | [] => []
  | Accepted cb _ :: later => cb :: accepted later
  | _ :: later => accepted later
  end.

(** The record [scheduleSend] builds. *)
Definition fresh (req : Request) (responseCallback : Callback) (now : HrTime)
    : PipelinedRequest :=
  {| response :=
       {| request := req;
          body := None;
          headers := ∅;
          statusCode := None;
          statusMessage := "";
          metadata :=
            {| startTime := now;
               bytes := 0;
               headersTime := None;
               duration := None |} |};
     callback := responseCallback |}.

(** What identifies a record for its owner: the request it was made for
    and the callback that waits for it.  No method of the class changes
    either. *)
Definition key (p : PipelinedRequest) : Request * Callback :=
  (request (response p), callback p).

(** A ['body_chunk'] event followed by the tick that runs the function
    it deferred. *)
Definition body_chunk (chunk : Buffer) (isLast : bool) (answer : UwsAnswer)
    (now : HrTime) (s : State) : State :=
  final (run_nextTick answer now (final (on_body_chunk chunk isLast s))).

(** Body chunks that are not the last one, delivered in order. *)
Fixpoint deliver (chunks : list (Buffer * UwsAnswer)) (now : HrTime)
    (s : State) : State :=
  match chunks with
  | [] => s
  | (chunk, answer) :: later =>
    deliver later now (body_chunk chunk false answer now s)
  end.

(** The sum of the lengths of the chunks. *)
Fixpoint total_length (chunks : list (Buffer * UwsAnswer)) : Z :=
  match chunks with
  | [] => 0
  | (chunk, _) :: later => Z.of_nat (length chunk) + total_length later
  end.

(** The calls [close()] makes for one record that has a response body
    stream. *)
Definition abort_events (p : PipelinedRequest) : list Event :=
  [Responded (callback p) (Some E_PIPELINE_ABORTED) (response p)]
  ++ match body (response p) with
     | Some stream => [Destroy stream (Some E_PIPELINE_ABORTED)]
     | None => []
     end
  ++ match req_body (request (response p)) with
     | Some stream => [Destroy stream None]
     | None => []
     end.

(** The completion-callback calls that abort the records of a queue. *)
Definition aborted (q : list PipelinedRequest)
    : list (Callback * option JsError * Response) :=
  map (fun p => (callback p, Some E_PIPELINE_ABORTED, response p)) q.

(** The [destroy] calls of a trace, oldest first. *)
Fixpoint destroyed (t : list Event) : list (StreamRef * option JsError) :=
  match t with
  | [] => []
  | Destroy stream err :: later => (stream, err) :: destroyed later
  | _ :: later => destroyed later
  end.

(** A record whose response object was given a body stream by its
    owner. *)
Definition with_body (stream : StreamRef) (p : PipelinedRequest)
    : PipelinedRequest :=
  {| response :=
       {| request := request (response p);
          body := Some stream;
          headers := headers (response p);
          statusCode := statusCode (response p);
          statusMessage := statusMessage (response p);
          metadata := metadata (response p) |};
     callback := callback p |}.

(** The record has a response body stream. *)
Definition has_body (p : PipelinedRequest) : Prop :=
  is_Some (body (response p)).

(** ** Runs of calls *)

(** One call of a method of the class, with what the outside answers
    during the call. *)
Inductive Call :=
| ScheduleSend (req : Request) (responseCallback onAccepted : Callback)
    (now : HrTime)
| SetStatus (code : Z) (message : string)
| SetHeaders (hs : Headers) (now : HrTime)
| AddByteCount (count : Z)
| AddBody (data : Buffer) (answer : UwsAnswer)
| TerminateRequest (now : HrTime)
| WritableNow (uwsResponse : UwsRef) (offset : Z) (ok done : bool)
| HandleSocketDataChunk (chunk : Buffer).

(** What a run of calls put on the queue and what it took off, oldest
    first: a record is put on by a [scheduleSend] that returns, and taken
    off by a [terminateRequest] that returns one. *)
Record Log := mkLog {
  enqueued : list PipelinedRequest;
  dequeued : list PipelinedRequest
}.

Definition log_app (a b : Log) : Log :=
  {| enqueued := enqueued a ++ enqueued b;
     dequeued := dequeued a ++ dequeued b |}.

Definition quiet : Log := {| enqueued := []; dequeued := [] |}.

Definition call (c : Call) (s : State) : Log * State :=
  match c with
  | ScheduleSend req responseCallback onAccepted now =>
    match scheduleSend req responseCallback onAccepted now s with
    | Return _ s' =>
      ({| enqueued := [fresh req responseCallback now]; dequeued := [] |}, s')
    | Throw _ s' => (quiet, s')
    end
  | SetStatus code message => (quiet, final (setStatus code message s))
  | SetHeaders hs now => (quiet, final (setHeaders hs now s))
  | AddByteCount count => (quiet, final (addByteCount count s))
  | AddBody data answer => (quiet, final (addBody data answer s))
  | TerminateRequest now =>
    match terminateRequest now s with
    | Return (Some data) s' => ({| enqueued := []; dequeued := [data] |}, s')
    | Return None s' => (quiet, s')
    | Throw _ s' => (quiet, s')
    end
  | WritableNow u offset ok done => (quiet, final (writable u offset ok done s))
  | HandleSocketDataChunk chunk => (quiet, final (handleSocketDataChunk chunk s))
  end.

Fixpoint run (calls : list Call) (s : State) : Log * State :=
  match calls with
  | [] => (quiet, s)
  | c :: later =>
    let '(l, s') := call c s in
    let '(l', s'') := run later s' in
    (log_app l l', s'')
  end.

(** The calls the ['headers'] listener makes. *)
Definition headers_calls (code : Z) (message : string) (hs : Headers)
    (expectedBodySize : option Z) (tHeaders tEnd : HrTime) : list Call :=
  [SetStatus code message; SetHeaders hs tHeaders]
  ++ match expectedBodySize with
     | Some 0 => [TerminateRequest tEnd]
     | _ => []
     end.

(** A call that writes to a record: the parser's events come down to
    these. *)
Definition mutation (c : Call) : bool :=
  match c with
  | SetStatus _ _ | SetHeaders _ _ | AddByteCount _ | AddBody _ _ => true
  | _ => false
  end.

(** ** Sequences of events *)

(** The arguments of one [scheduleSend] call. *)
Record Send := mkSend {
  send_request : Request;
  send_responseCallback : Callback;
  send_callback : Callback;
  send_now : HrTime
}.

Definition send_call (x : Send) : Call :=
  ScheduleSend (send_request x) (send_responseCallback x) (send_callback x)
    (send_now x).

(** The record a [scheduleSend] call that returns puts on the queue. *)
Definition send_record (x : Send) : PipelinedRequest :=
  fresh (send_request x) (send_responseCallback x) (send_now x).

(** The [tryEnd] calls of a trace, oldest first. *)
Fixpoint tried (t : list Event) : list (UwsRef * Buffer * option string) :=
  match t with
  | [] => []
  | TryEnd u data total :: later => (u, data, total) :: tried later
  | _ :: later => tried later
  end.

(** The [push] calls of a trace, oldest first. *)
Fixpoint pushed (t : list Event) : list (StreamRef * Buffer) :=
  match t with
  | [] => []
  | Push stream data :: later => (stream, data) :: pushed later
  | _ :: later => pushed later
  end.

(** The [destroy] calls [close()] makes for one record. *)
Definition destroys (p : PipelinedRequest)
    : list (StreamRef * option JsError) :=
  match body (response p) with
  | Some stream => [(stream, Some E_PIPELINE_ABORTED)]
  | None => []
  end
  ++ match req_body (request (response p)) with
     | Some stream => [(stream, None)]
     | None => []
     end.

(** A record nothing was written to since [scheduleSend] built it. *)
Definition pristine (p : PipelinedRequest) : Prop :=
  p = fresh (request (response p)) (callback p)
        (startTime (metadata (response p))).

(** Writable notifications of the uWebSockets response [u], each with
    the offset it carries and what [tryEnd] answers to the retry. *)
Fixpoint notifications (u : UwsRef) (ns : list (Z * bool * bool)) (s : State)
    : State :=
  match ns with
  | [] => s
  | (offset, ok, done) :: later =>
    notifications u later (final (writable u offset ok done s))
  end.

(** Nanoseconds between two readings of the clock. *)
Definition elapsed_ns (now start : HrTime) : Z :=
  (fst now - fst start) * 1000000000 + (snd now - snd start).

(** What is kept on a uWebSockets response has both a saved offset and
    a handler. *)
Definition complete (r : UwsResponse) : Prop :=
  is_Some (abOffset r) /\ is_Some (onWritable r).

(** * Properties *)

Ltac open_state s :=
  destruct s as [maxRequests queue uwss ticks gone events]; cbn in *.

(** ** Admission *)

Section Admission.

Variables (req : Request) (responseCallback onAccepted : Callback) (now : HrTime).

Lemma responded_app (t u : list Event) :
  responded (t ++ u) = responded t ++ responded u.
Proof.
  induction t as [|e t IH]; [reflexivity|].
  destruct e; cbn; rewrite IH; reflexivity.
Qed.

Lemma accepted_app (t u : list Event) :
  accepted (t ++ u) = accepted t ++ accepted u.
Proof.
  induction t as [|e t IH]; [reflexivity|].
  destruct e; cbn; rewrite IH; reflexivity.
Qed.

(** The two outcomes of [scheduleSend], by the test of its first line. *)
Lemma scheduleSend_cases (s : State) :
  (0 < _maxRequests s /\ _maxRequests s <= size s
   /\ scheduleSend req responseCallback onAccepted now s
      = Throw E_PIPELINE_OVERFLOW s)
  \/ (~ (0 < _maxRequests s /\ _maxRequests s <= size s)
      /\ scheduleSend req responseCallback onAccepted now s
         = Return tt
             {| _maxRequests := _maxRequests s;
                _pendingRequests :=
                  _pendingRequests s ++ [fresh req responseCallback now];
                uwsResponses := uwsResponses s;
                nextTick := nextTick s;
                shifted := shifted s;
                trace :=
                  trace s
                  ++ [Accepted onAccepted
                        (_pendingRequests s
                         ++ [fresh req responseCallback now])] |}).
Proof.
  unfold scheduleSend, size, bind, get.
  destruct (0 <? _maxRequests s) eqn:Hpos;
    destruct (_maxRequests s <=? Z.of_nat (length (_pendingRequests s))) eqn:Hfull;
    cbn; [left | right | right | right];
    repeat split; try reflexivity; lia.
Qed.

(** C4.  With a positive maximum that the queue has reached,
    [scheduleSend] throws the error whose code is [E_PIPELINE_OVERFLOW];
    the state it leaves is the state it found, so no record was added,
    [size()] is the same, and the trace is the same: neither the
    acknowledgement callback nor the completion callback was called. *)
Theorem scheduleSend_overflow (s : State) :
  0 < _maxRequests s ->
  _maxRequests s <= size s ->
  let o := scheduleSend req responseCallback onAccepted now s in
  threw o = Some E_PIPELINE_OVERFLOW
  /\ error_code E_PIPELINE_OVERFLOW = Some "E_PIPELINE_OVERFLOW"
  /\ final o = s
  /\ _pendingRequests (final o) = _pendingRequests s
  /\ size (final o) = size s
  /\ accepted (trace (final o)) = accepted (trace s)
  /\ responded (trace (final o)) = responded (trace s).
Proof.
  intros Hpos Hfull o. subst o.
  destruct (scheduleSend_cases s) as [(_ & _ & ->) | (Hnot & _)].
  - cbn. repeat split; reflexivity.
  - exfalso. apply Hnot. split; assumption.
Qed.

(** C8.  A call of [scheduleSend] that does not overflow returns; the
    queue it leaves is the queue it found with one record more, at the
    tail; that record has a byte counter of [0], the clock's reading as
    [startTime], the request and the completion callback it was given.
    The acknowledgement callback is called once, and the queue it is
    called on already ends with the new record.  [size()] is one more. *)
Theorem scheduleSend_enqueues_then_acknowledges (s : State) :
  threw (scheduleSend req responseCallback onAccepted now s)
    <> Some E_PIPELINE_OVERFLOW ->
  exists (record : PipelinedRequest) (s' : State),
    scheduleSend req responseCallback onAccepted now s = Return tt s'
    /\ bytes (metadata (response record)) = 0
    /\ startTime (metadata (response record)) = now
    /\ request (response record) = req
    /\ callback record = responseCallback
    /\ _pendingRequests s' = _pendingRequests s ++ [record]
    /\ trace s'
       = trace s ++ [Accepted onAccepted (_pendingRequests s ++ [record])]
    /\ accepted (trace s') = accepted (trace s) ++ [onAccepted]
    /\ responded (trace s') = responded (trace s)
    /\ size s' = size s + 1.
Proof.
  intros Hok.
  destruct (scheduleSend_cases s) as [(_ & _ & Hthrow) | (_ & Hret)].
  - rewrite Hthrow in Hok. cbn in Hok. congruence.
  - eexists (fresh req responseCallback now), _.
    split; [exact Hret|]. cbn.
    rewrite accepted_app, responded_app. cbn.
    rewrite app_nil_r. unfold size. cbn.
    rewrite length_app. cbn.
    repeat split; try reflexivity. lia.
Qed.

(** C10, as amended.  For a maximum that is not negative, [scheduleSend]
    throws [E_PIPELINE_OVERFLOW] exactly when [acceptsMoreRequests()] is
    false. *)
Theorem overflow_iff_not_accepting (s : State) :
  0 <= _maxRequests s ->
  threw (scheduleSend req responseCallback onAccepted now s)
    = Some E_PIPELINE_OVERFLOW
  <-> acceptsMoreRequests s = false.
Proof.
  intros Hmax. unfold acceptsMoreRequests.
  destruct (scheduleSend_cases s) as [(Hpos & Hfull & ->) | (Hnot & ->)];
    cbn; unfold size in *.
  - split; [intros _ | reflexivity].
    apply orb_false_iff. split; [apply Z.eqb_neq | apply Z.ltb_ge]; lia.
  - split; [discriminate|]. intros Hacc.
    apply orb_false_iff in Hacc. destruct Hacc as [Hz Hlt].
    apply Z.eqb_neq in Hz. apply Z.ltb_ge in Hlt.
    exfalso. apply Hnot. lia.
Qed.

End Admission.

(** C4 at work: [maxRequests = 2], two requests sent, a third refused. *)
Lemma scheduleSend_overflow_witness :
  let s :=
    final (scheduleSend (mkRequest 1 None None) 11%nat 21%nat (0, 200)
      (final (scheduleSend (mkRequest 0 None None) 10%nat 20%nat (0, 100)
        (constructor 2)))) in
  let o := scheduleSend (mkRequest 2 None None) 12%nat 22%nat (0, 300) s in
  (0 < _maxRequests s /\ _maxRequests s <= size s)
  /\ threw o = Some E_PIPELINE_OVERFLOW
  /\ size (final o) = 2.
Proof.
  intros s o.
  assert (Hpos : 0 < _maxRequests s) by (vm_compute; reflexivity).
  assert (Hfull : _maxRequests s <= size s) by (vm_compute; discriminate).
  pose proof (scheduleSend_overflow (mkRequest 2 None None) 12%nat 22%nat
                (0, 300) s Hpos Hfull) as (Hthrew & _ & Hfinal & _).
  split; [split; assumption|].
  split; [exact Hthrew|].
  fold o in Hfinal. rewrite Hfinal. reflexivity.
Defined.

(** C8 at work on the pipeline of the default options. *)
Lemma scheduleSend_enqueues_then_acknowledges_witness :
  threw (scheduleSend (mkRequest 0 None None) 10%nat 20%nat (0, 100)
           constructor_default) <> Some E_PIPELINE_OVERFLOW
  /\ exists record s',
       scheduleSend (mkRequest 0 None None) 10%nat 20%nat (0, 100)
         constructor_default = Return tt s'
       /\ _pendingRequests s' = [record]
       /\ accepted (trace s') = [20%nat]
       /\ size s' = 1.
Proof.
  assert (Hok : threw (scheduleSend (mkRequest 0 None None) 10%nat 20%nat
                         (0, 100) constructor_default)
                <> Some E_PIPELINE_OVERFLOW) by (vm_compute; discriminate).
  split; [exact Hok|].
  destruct (scheduleSend_enqueues_then_acknowledges (mkRequest 0 None None)
              10%nat 20%nat (0, 100) constructor_default Hok)
    as (record & s' & Hret & _ & _ & _ & _ & Hq & _ & Hacc & _ & Hsize).
  exists record, s'. repeat split; assumption.
Defined.

(** C10 as stated fails for a negative maximum: [acceptsMoreRequests()]
    is false on the empty queue of [maxRequests = -1], and [scheduleSend]
    does not throw there. *)
Lemma negative_maximum_refuses_but_admits :
  ~ (threw (scheduleSend (mkRequest 0 None None) 10%nat 20%nat (0, 100)
              (constructor (-1))) = Some E_PIPELINE_OVERFLOW
     <-> acceptsMoreRequests (constructor (-1)) = false).
Proof.
  intros [_ Hback].
  specialize (Hback eq_refl). vm_compute in Hback. discriminate.
Qed.

(** C10 as amended at work: [maxRequests = 1] with one record queued. *)
Lemma overflow_iff_not_accepting_witness :
  let s := final (scheduleSend (mkRequest 0 None None) 10%nat 20%nat (0, 100)
                    (constructor 1)) in
  0 <= _maxRequests s
  /\ (threw (scheduleSend (mkRequest 1 None None) 11%nat 21%nat (0, 200) s)
        = Some E_PIPELINE_OVERFLOW
      <-> acceptsMoreRequests s = false).
Proof.
  intros s.
  assert (Hmax : 0 <= _maxRequests s) by (vm_compute; discriminate).
  split; [exact Hmax|].
  exact (overflow_iff_not_accepting (mkRequest 1 None None) 11%nat 21%nat
           (0, 200) s Hmax).
Defined.

(** ** The queue discipline *)

Section QueueDiscipline.

Lemma update_first_spec (f : PipelinedRequest -> PipelinedRequest) (s : State) :
  exists s',
    update_first f s = Return tt s'
    /\ _pendingRequests s'
       = match _pendingRequests s with
         | first :: rest => f first :: rest
         | [] => []
         end
    /\ trace s' = trace s
    /\ uwsResponses s' = uwsResponses s
    /\ nextTick s' = nextTick s
    /\ _maxRequests s' = _maxRequests s.
Proof.
  open_state s. unfold update_first, bind, get. cbn.
  destruct queue as [|first rest]; cbn; eexists; repeat split; reflexivity.
Qed.

(** [setStatus] writes the two status fields of the first record and
    nothing else; on an empty queue it does nothing. *)
Lemma setStatus_first (code : Z) (message : string) (s : State) :
  exists s',
    setStatus code message s = Return tt s'
    /\ _pendingRequests s'
       = match _pendingRequests s with
         | first :: rest =>
           {| response :=
                {| request := request (response first);
                   body := body (response first);
                   headers := headers (response first);
                   statusCode := Some code;
                   statusMessage := message;
                   metadata := metadata (response first) |};
              callback := callback first |} :: rest
         | [] => []
         end
    /\ trace s' = trace s
    /\ uwsResponses s' = uwsResponses s
    /\ nextTick s' = nextTick s
    /\ _maxRequests s' = _maxRequests s.
Proof.
  unfold setStatus. apply update_first_spec.
Qed.

(** [setHeaders] writes the headers and [headersTime] of the first
    record and nothing else; on an empty queue it does nothing. *)
Lemma setHeaders_first (hs : Headers) (now : HrTime) (s : State) :
  exists s',
    setHeaders hs now s = Return tt s'
    /\ _pendingRequests s'
       = match _pendingRequests s with
         | first :: rest =>
           {| response :=
                {| request := request (response first);
                   body := body (response first);
                   headers := hs;
                   statusCode := statusCode (response first);
                   statusMessage := statusMessage (response first);
                   metadata :=
                     stamp_headersTime now (metadata (response first)) |};
              callback := callback first |} :: rest
         | [] => []
         end
    /\ trace s' = trace s
    /\ uwsResponses s' = uwsResponses s
    /\ nextTick s' = nextTick s
    /\ _maxRequests s' = _maxRequests s.
Proof.
  unfold setHeaders. apply update_first_spec.
Qed.

(** [terminateRequest] on a queue that is not empty: the first record
    leaves, the others stay as they are and in their order, and the
    record returned is the first one with its duration written. *)
Lemma terminateRequest_first (now : HrTime) (s : State)
    (first : PipelinedRequest) (rest : list PipelinedRequest) :
  _pendingRequests s = first :: rest ->
  exists s',
    terminateRequest now s
    = Return
        (Some (with_metadata
                 (stamp_duration
                    (milliseconds
                       (hrtime_since now (startTime (metadata (response first))))))
                 first))
        s'
    /\ _pendingRequests s' = rest
    /\ trace s' = trace s
    /\ uwsResponses s' = uwsResponses s
    /\ nextTick s' = nextTick s
    /\ _maxRequests s' = _maxRequests s.
Proof.
  intros Hq. open_state s. subst queue.
  unfold terminateRequest, bind, get. cbn.
  eexists. repeat split; reflexivity.
Qed.

(** [terminateRequest] on an empty queue returns [undefined] and leaves
    the state as it is. *)
Lemma terminateRequest_empty (now : HrTime) (s : State) :
  _pendingRequests s = [] ->
  terminateRequest now s = Return None s.
Proof.
  intros Hq. unfold terminateRequest, bind, get. rewrite Hq. reflexivity.
Qed.

(** [addByteCount] on a queue that is not empty adds to the counter of
    the first record and touches nothing else. *)
Lemma addByteCount_first (count : Z) (s : State)
    (first : PipelinedRequest) (rest : list PipelinedRequest) :
  _pendingRequests s = first :: rest ->
  exists s',
    addByteCount count s = Return tt s'
    /\ _pendingRequests s' = with_metadata (add_bytes count) first :: rest
    /\ trace s' = trace s
    /\ uwsResponses s' = uwsResponses s
    /\ nextTick s' = nextTick s
    /\ _maxRequests s' = _maxRequests s.
Proof.
  intros Hq. open_state s. subst queue.
  unfold addByteCount, peek, update_first, bind, get. cbn.
  eexists. repeat split; reflexivity.
Qed.

(** Both [addByteCount] and [addBody] read a property of what [peek()]
    returned before testing it: on an empty queue they throw, leaving the
    state as it is. *)
Lemma addByteCount_empty (count : Z) (s : State) :
  _pendingRequests s = [] ->
  addByteCount count s = Throw TypeError s.
Proof.
  intros Hq. unfold addByteCount, peek, bind, get. rewrite Hq. reflexivity.
Qed.

Lemma addBody_empty (data : Buffer) (answer : UwsAnswer) (s : State) :
  _pendingRequests s = [] ->
  addBody data answer s = Throw TypeError s.
Proof.
  intros Hq. unfold addBody, peek, bind, get. rewrite Hq. reflexivity.
Qed.

(** [addBody] on a queue that is not empty, whatever way it ends: the
    counter of the first record has grown by the length of the chunk, and
    nothing else in the queue has changed.  No completion callback is
    called. *)
Lemma addBody_first (data : Buffer) (answer : UwsAnswer) (s : State)
    (first : PipelinedRequest) (rest : list PipelinedRequest) :
  _pendingRequests s = first :: rest ->
  let s' := final (addBody data answer s) in
  _pendingRequests s'
  = with_metadata (add_bytes (Z.of_nat (length data))) first :: rest
  /\ responded (trace s') = responded (trace s)
  /\ nextTick s' = nextTick s
  /\ _maxRequests s' = _maxRequests s.
Proof.
  intros Hq. open_state s. subst queue.
  unfold addBody, addByteCount, peek, update_first, bind, get. cbn.
  destruct (req_response (request (response first))) as [u|]; cbn.
  - destruct (tryEnd_done answer), (tryEnd_ok answer); cbn;
      rewrite responded_app; cbn; rewrite app_nil_r; repeat split; reflexivity.
  - destruct (body (response first)); cbn;
      rewrite ?responded_app; cbn; rewrite ?app_nil_r;
      repeat split; reflexivity.
Qed.

(** [writable] only talks to the uWebSockets response. *)
Lemma writable_queue (u : UwsRef) (offset : Z) (ok done : bool) (s : State) :
  let s' := final (writable u offset ok done s) in
  _pendingRequests s' = _pendingRequests s
  /\ responded (trace s') = responded (trace s)
  /\ nextTick s' = nextTick s
  /\ _maxRequests s' = _maxRequests s.
Proof.
  open_state s. unfold writable, bind, get, uws_of. cbn.
  destruct (onWritable (default uws_untouched (uwss !! u))); cbn;
    rewrite ?responded_app; cbn; rewrite ?app_nil_r;
    repeat split; reflexivity.
Qed.

(** The keys of a queue whose first record was rewritten in place. *)
Lemma keys_first_rewritten (f : PipelinedRequest -> PipelinedRequest)
    (q : list PipelinedRequest) :
  (forall p, key (f p) = key p) ->
  map key (match q with first :: rest => f first :: rest | [] => [] end)
  = map key q.
Proof.
  intros Hf. destruct q as [|first rest]; cbn; [reflexivity|].
  rewrite Hf. reflexivity.
Qed.

(** One call changes the queue as a FIFO does: what it takes off comes
    from the front, what it puts on goes to the back, the rest keeps its
    place. *)
Lemma call_fifo (c : Call) (s : State) :
  map key (dequeued (fst (call c s)))
    ++ map key (_pendingRequests (snd (call c s)))
  = map key (_pendingRequests s) ++ map key (enqueued (fst (call c s))).
Proof.
  destruct c as [req rcb cb now | code message | hs now | count
                | data answer | now | u offset ok done | chunk]; unfold call.
  - destruct (scheduleSend_cases req rcb cb now s)
      as [(_ & _ & ->) | (_ & ->)]; cbn.
    + rewrite app_nil_r. reflexivity.
    + rewrite map_app. reflexivity.
  - destruct (setStatus_first code message s) as (s' & Hret & Hq & _).
    rewrite Hret. cbn. rewrite Hq, app_nil_r.
    apply keys_first_rewritten. reflexivity.
  - destruct (setHeaders_first hs now s) as (s' & Hret & Hq & _).
    rewrite Hret. cbn. rewrite Hq, app_nil_r.
    apply keys_first_rewritten. reflexivity.
  - destruct (_pendingRequests s) as [|first rest] eqn:Hq.
    + rewrite (addByteCount_empty count s Hq). cbn. rewrite Hq, ?app_nil_r. reflexivity.
    + destruct (addByteCount_first count s first rest Hq) as (s' & Hret & Hq' & _).
      rewrite Hret. cbn. rewrite Hq', ?app_nil_r. reflexivity.
  - destruct (_pendingRequests s) as [|first rest] eqn:Hq.
    + rewrite (addBody_empty data answer s Hq). cbn. rewrite Hq, ?app_nil_r. reflexivity.
    + destruct (addBody_first data answer s first rest Hq) as (Hq' & _).
      cbn [fst snd quiet dequeued enqueued map app]. rewrite Hq'.
      cbn. rewrite app_nil_r. reflexivity.
  - destruct (_pendingRequests s) as [|first rest] eqn:Hq.
    + rewrite (terminateRequest_empty now s Hq). cbn. rewrite Hq, ?app_nil_r. reflexivity.
    + destruct (terminateRequest_first now s first rest Hq) as (s' & Hret & Hq' & _).
      rewrite Hret. cbn. rewrite Hq', app_nil_r. reflexivity.
  - destruct (writable_queue u offset ok done s) as (Hq & _).
    cbn [fst snd quiet dequeued enqueued map app]. rewrite Hq, app_nil_r.
    reflexivity.
  - cbn. rewrite app_nil_r. reflexivity.
Qed.

Lemma run_cons (c : Call) (later : list Call) (s : State) :
  run (c :: later) s
  = (log_app (fst (call c s)) (fst (run later (snd (call c s)))),
     snd (run later (snd (call c s)))).
Proof.
  cbn. destruct (call c s) as [l s']. cbn.
  destruct (run later s') as [l' s'']. reflexivity.
Qed.

(** Over any run of calls: the records taken off, followed by the
    records still queued, are the records that were queued at the start
    followed by the records put on, in that order. *)
Lemma run_fifo (calls : list Call) (s : State) :
  map key (dequeued (fst (run calls s)))
    ++ map key (_pendingRequests (snd (run calls s)))
  = map key (_pendingRequests s) ++ map key (enqueued (fst (run calls s))).
Proof.
  revert s. induction calls as [|c later IH]; intros s.
  - cbn. rewrite app_nil_r. reflexivity.
  - rewrite run_cons. cbn. rewrite !map_app.
    rewrite <- app_assoc, IH, !app_assoc, call_fifo. reflexivity.
Qed.

(** The ['headers'] listener is the sequence of its calls. *)
Lemma on_headers_run (code : Z) (message : string) (hs : Headers)
    (expectedBodySize : option Z) (tHeaders tEnd : HrTime) (s : State) :
  on_headers code message hs expectedBodySize tHeaders tEnd s
  = Return tt
      (snd (run (headers_calls code message hs expectedBodySize tHeaders tEnd) s)).
Proof.
  unfold on_headers, headers_calls.
  destruct (setStatus_first code message s) as (s1 & H1 & _).
  destruct (setHeaders_first hs tHeaders s1) as (s2 & H2 & _).
  cbn [app]. rewrite !run_cons. cbn [snd call].
  unfold bind at 1. rewrite H1. cbn [final].
  unfold bind at 1. rewrite H2. cbn [final].
  destruct expectedBodySize as [[| |]|]; try reflexivity.
  rewrite run_cons. cbn [snd call run]. unfold bind.
  destruct (_pendingRequests s2) as [|first rest] eqn:Hq.
  - rewrite (terminateRequest_empty tEnd s2 Hq). reflexivity.
  - destruct (terminateRequest_first tEnd s2 first rest Hq) as (s3 & -> & _).
    reflexivity.
Qed.

(** The function deferred for a body chunk, on a queue that is not
    empty: the chunk is counted on the first record, which then leaves
    the queue when the chunk is the last one and [addBody] returned; the
    records behind it are not touched. *)
Lemma body_chunk_task_first (chunk : Buffer) (isLast : bool)
    (answer : UwsAnswer) (now : HrTime) (s : State)
    (first : PipelinedRequest) (rest : list PipelinedRequest) :
  _pendingRequests s = first :: rest ->
  let s' := final (body_chunk_task chunk isLast answer now s) in
  (_pendingRequests s'
   = with_metadata (add_bytes (Z.of_nat (length chunk))) first :: rest
   \/ isLast = true /\ _pendingRequests s' = rest)
  /\ (isLast = false ->
      _pendingRequests s'
      = with_metadata (add_bytes (Z.of_nat (length chunk))) first :: rest)
  /\ responded (trace s') = responded (trace s)
  /\ nextTick s' = nextTick s.
Proof.
  intros Hq.
  destruct (addBody_first chunk answer s first rest Hq) as (Hq1 & Hr1 & Ht1 & _).
  unfold body_chunk_task, bind.
  destruct (addBody chunk answer s) as [[] s1 | e s1]; cbn in Hq1, Hr1, Ht1.
  - destruct isLast.
    + destruct (terminateRequest_first now s1 _ _ Hq1)
        as (s2 & -> & Hq2 & Hr2 & _ & Ht2 & _).
      cbn. rewrite Hr2, Ht2.
      split; [right; split; [reflexivity | assumption]|].
      split; [discriminate|]. split; assumption.
    + cbn. split; [left; assumption|].
      split; [intros _; assumption|]. split; assumption.
  - cbn. split; [left; assumption|].
    split; [intros _; assumption|]. split; assumption.
Qed.

End QueueDiscipline.

(** C3.  The queue is a FIFO under every operation.
    - [scheduleSend] puts its record at the tail.
    - [terminateRequest] takes the first record off and returns it.
    - [setStatus], [setHeaders], [addByteCount] and [addBody] change the
      first record and no other, and neither do the ['headers'] listener
      and the function deferred for a body chunk, which may also take
      the first record off.
    - So, over any run of calls, the records taken off followed by the
      records still queued are the records queued at the start followed
      by the records put on: records leave in the order they came. *)
Theorem head_of_line_ordering :
  (forall req responseCallback onAccepted now s s',
     scheduleSend req responseCallback onAccepted now s = Return tt s' ->
     _pendingRequests s'
     = _pendingRequests s ++ [fresh req responseCallback now])
  /\ (forall now s first rest,
        _pendingRequests s = first :: rest ->
        exists data s',
          terminateRequest now s = Return (Some data) s'
          /\ key data = key first
          /\ _pendingRequests s' = rest)
  /\ (forall c s first rest,
        mutation c = true ->
        _pendingRequests s = first :: rest ->
        exists first',
          _pendingRequests (snd (call c s)) = first' :: rest
          /\ key first' = key first)
  /\ (forall code message hs expectedBodySize tHeaders tEnd s first rest,
        _pendingRequests s = first :: rest ->
        exists first',
          key first' = key first
          /\ _pendingRequests
               (final (on_headers code message hs expectedBodySize
                         tHeaders tEnd s))
             = match expectedBodySize with
               | Some 0 => rest
               | _ => first' :: rest
               end)
  /\ (forall chunk isLast answer now s first rest,
        _pendingRequests s = first :: rest ->
        exists first',
          key first' = key first
          /\ (_pendingRequests (final (body_chunk_task chunk isLast answer now s))
              = first' :: rest
              \/ isLast = true
                 /\ _pendingRequests
                      (final (body_chunk_task chunk isLast answer now s))
                    = rest))
  /\ (forall calls s,
        map key (dequeued (fst (run calls s)))
          ++ map key (_pendingRequests (snd (run calls s)))
        = map key (_pendingRequests s)
          ++ map key (enqueued (fst (run calls s)))).
Proof.
  split; [|split; [|split; [|split; [|split]]]].
  - intros req rcb cb now s s' Hret.
    destruct (scheduleSend_cases req rcb cb now s)
      as [(_ & _ & Hthrow) | (_ & Hok)].
    + rewrite Hthrow in Hret. discriminate.
    + rewrite Hok in Hret. injection Hret as <-. reflexivity.
  - intros now s first rest Hq.
    destruct (terminateRequest_first now s first rest Hq) as (s' & Hret & Hq' & _).
    eexists _, s'. split; [exact Hret|]. split; [reflexivity | exact Hq'].
  - intros c s first rest Hm Hq.
    destruct c; try discriminate Hm; unfold call.
    + destruct (setStatus_first code message s) as (s' & -> & Hq' & _).
      cbn. rewrite Hq', Hq. eexists. split; reflexivity.
    + destruct (setHeaders_first hs now s) as (s' & -> & Hq' & _).
      cbn. rewrite Hq', Hq. eexists. split; reflexivity.
    + destruct (addByteCount_first count s first rest Hq) as (s' & -> & Hq' & _).
      cbn. rewrite Hq'. eexists. split; reflexivity.
    + destruct (addBody_first data answer s first rest Hq) as (Hq' & _).
      cbn [snd]. rewrite Hq'. eexists. split; reflexivity.
  - intros code message hs ebs tHeaders tEnd s first rest Hq.
    rewrite on_headers_run. cbn [final]. unfold headers_calls. cbn [app].
    rewrite !run_cons. cbn [snd call].
    destruct (setStatus_first code message s) as (s1 & -> & Hq1 & _).
    cbn [final]. rewrite Hq in Hq1.
    destruct (setHeaders_first hs tHeaders s1) as (s2 & -> & Hq2 & _).
    cbn [final]. rewrite Hq1 in Hq2.
    eexists. split; [|destruct ebs as [[| |]|]; [|exact Hq2..]].
    + reflexivity.
    + rewrite run_cons. cbn [snd call run].
      destruct (terminateRequest_first tEnd s2 _ _ Hq2) as (s3 & -> & Hq3 & _).
      exact Hq3.
  - intros chunk isLast answer now s first rest Hq.
    destruct (body_chunk_task_first chunk isLast answer now s first rest Hq)
      as (Hcases & _).
    eexists. split; [|exact Hcases]. reflexivity.
  - exact run_fifo.
Qed.

(** C3 at work: two requests queued, the first one written to and then
    taken off, a third one queued behind. *)
Lemma head_of_line_ordering_witness :
  let a := mkRequest 0 None None in
  let b := mkRequest 1 None None in
  let c := mkRequest 2 None None in
  let s :=
    snd (run [ScheduleSend a 10%nat 20%nat (0, 1);
              ScheduleSend b 11%nat 21%nat (0, 2)] (constructor 0)) in
  let calls :=
    [AddByteCount 5; TerminateRequest (1, 0);
     ScheduleSend c 12%nat 22%nat (1, 5); TerminateRequest (2, 0)] in
  (exists data s',
     terminateRequest (1, 0) s = Return (Some data) s'
     /\ key data = (a, 10%nat)
     /\ _pendingRequests s' = [fresh b 11%nat (0, 2)])
  /\ (exists first',
        _pendingRequests (snd (call (AddByteCount 5) s))
        = [first'; fresh b 11%nat (0, 2)]
        /\ key first' = (a, 10%nat))
  /\ map key (dequeued (fst (run calls s)))
       ++ map key (_pendingRequests (snd (run calls s)))
     = [(a, 10%nat); (b, 11%nat); (c, 12%nat)].
Proof.
  intros a b c s calls.
  destruct head_of_line_ordering as (_ & Hpop & Hmut & _ & _ & Hrun).
  split; [|split].
  - exact (Hpop (1, 0) s (fresh a 10%nat (0, 1)) [fresh b 11%nat (0, 2)] eq_refl).
  - exact (Hmut (AddByteCount 5) s (fresh a 10%nat (0, 1))
             [fresh b 11%nat (0, 2)] eq_refl eq_refl).
  - rewrite (Hrun calls s). reflexivity.
Defined.

(** ** Termination by the headers *)

(** Where the objects taken off the queue go: [setStatus] and
    [setHeaders] leave [shifted] alone, [terminateRequest] adds the
    record it returns. *)
Lemma setStatus_shifted (code : Z) (message : string) (s : State) :
  shifted (final (setStatus code message s)) = shifted s.
Proof.
  open_state s. unfold setStatus, update_first, bind, get. cbn.
  destruct queue; reflexivity.
Qed.

Lemma setHeaders_shifted (hs : Headers) (now : HrTime) (s : State) :
  shifted (final (setHeaders hs now s)) = shifted s.
Proof.
  open_state s. unfold setHeaders, update_first, bind, get. cbn.
  destruct queue; reflexivity.
Qed.

Lemma terminateRequest_shifted (now : HrTime) (s : State)
    (first : PipelinedRequest) (rest : list PipelinedRequest) :
  _pendingRequests s = first :: rest ->
  shifted (final (terminateRequest now s))
  = shifted s
    ++ [with_metadata
          (stamp_duration
             (milliseconds
                (hrtime_since now (startTime (metadata (response first))))))
          first].
Proof.
  intros Hq. open_state s. subst queue.
  unfold terminateRequest, bind, get. reflexivity.
Qed.

(** C6.  A ['headers'] event on a queue that is not empty, with an
    expected body size of [0]: the listener returns; the first record
    gets the status code, the status message and the headers of the
    event; that record is then taken off by [terminateRequest], with its
    duration written, in the same event (nothing is deferred, and no
    body chunk is involved); [size()] is one less.  The record the
    listener leaves behind, off the queue, is the first record with the
    status code, the status message, the headers, the time of the
    headers and the duration written to it, and nothing else changed. *)
Theorem headers_of_empty_body_terminate (code : Z) (message : string)
    (hs : Headers) (tHeaders tEnd : HrTime) (s : State)
    (first : PipelinedRequest) (rest : list PipelinedRequest) :
  _pendingRequests s = first :: rest ->
  exists (written terminated : PipelinedRequest) (s' : State),
    on_headers code message hs (Some 0) tHeaders tEnd s = Return tt s'
    /\ _pendingRequests
         (snd (run [SetStatus code message; SetHeaders hs tHeaders] s))
       = written :: rest
    /\ key written = key first
    /\ statusCode (response written) = Some code
    /\ statusMessage (response written) = message
    /\ headers (response written) = hs
    /\ run (headers_calls code message hs (Some 0) tHeaders tEnd) s
       = ({| enqueued := []; dequeued := [terminated] |}, s')
    /\ terminated
       = with_metadata
           (stamp_duration
              (milliseconds
                 (hrtime_since tEnd (startTime (metadata (response first))))))
           written
    /\ is_Some (duration (metadata (response terminated)))
    /\ _pendingRequests s' = rest
    /\ size s' = size s - 1
    /\ nextTick s' = nextTick s
    /\ trace s' = trace s
    /\ shifted s' = shifted s ++ [terminated]
    /\ terminated
       = {| response :=
              {| request := request (response first);
                 body := body (response first);
                 headers := hs;
                 statusCode := Some code;
                 statusMessage := message;
                 metadata :=
                   {| startTime := startTime (metadata (response first));
                      bytes := bytes (metadata (response first));
                      headersTime := Some tHeaders;
                      duration :=
                        Some (milliseconds
                                (hrtime_since tEnd
                                   (startTime (metadata (response first))))) |} |};
            callback := callback first |}.
Proof.
  intros Hq.
  rewrite on_headers_run. unfold headers_calls. cbn [app].
  rewrite !run_cons. cbn [snd fst call run].
  pose proof (setStatus_shifted code message s) as Hs1.
  destruct (setStatus_first code message s)
    as (s1 & Hr1 & Hq1 & Ht1 & _ & Hn1 & _).
  rewrite Hr1 in Hs1 |- *. cbn [final] in Hs1 |- *. rewrite Hq in Hq1.
  pose proof (setHeaders_shifted hs tHeaders s1) as Hs2.
  destruct (setHeaders_first hs tHeaders s1)
    as (s2 & Hr2 & Hq2 & Ht2 & _ & Hn2 & _).
  rewrite Hr2 in Hs2 |- *. cbn [final] in Hs2 |- *.
  rewrite Hq1 in Hq2. cbn in Hq2.
  pose proof (terminateRequest_shifted tEnd s2 _ _ Hq2) as Hs3.
  destruct (terminateRequest_first tEnd s2 _ _ Hq2)
    as (s3 & Hr3 & Hq3 & Ht3 & _ & Hn3 & _).
  rewrite Hr3 in Hs3 |- *. cbn [final] in Hs3.
  cbn. do 3 eexists.
  split; [reflexivity|].
  split; [exact Hq2|].
  repeat (split; [reflexivity|]).
  split; [eexists; reflexivity|].
  split; [exact Hq3|].
  split; [unfold size; rewrite Hq3, Hq; cbn [length]; lia|].
  split; [congruence|]. split; [congruence|].
  split; [|reflexivity].
  rewrite Hs3, Hs2, Hs1. reflexivity.
Qed.

(** C6 at work: a response without a body to the only request queued. *)
Lemma headers_of_empty_body_terminate_witness :
  let s := final (scheduleSend (mkRequest 0 None None) 10%nat 20%nat (0, 100)
                    constructor_default) in
  _pendingRequests s = [fresh (mkRequest 0 None None) 10%nat (0, 100)]
  /\ exists terminated s',
       on_headers 204 "No Content" ∅ (Some 0) (0, 500) (0, 900) s
       = Return tt s'
       /\ size s' = 0
       /\ shifted s' = [terminated]
       /\ statusCode (response terminated) = Some 204
       /\ statusMessage (response terminated) = "No Content"
       /\ headersTime (metadata (response terminated)) = Some (0, 500)
       /\ is_Some (duration (metadata (response terminated))).
Proof.
  intros s.
  assert (Hq : _pendingRequests s
               = [fresh (mkRequest 0 None None) 10%nat (0, 100)])
    by reflexivity.
  split; [exact Hq|].
  destruct (headers_of_empty_body_terminate 204 "No Content" ∅ (0, 500) (0, 900)
              s _ _ Hq)
    as (written & terminated & s' & Hret & _ & _ & _ & _ & _ & _ & _ & Hd
        & _ & Hsize & _ & _ & Hshifted & Hrecord).
  exists terminated, s'. split; [exact Hret|]. split; [exact Hsize|].
  split; [exact Hshifted|]. split; [|split; [|split; [|exact Hd]]];
    rewrite Hrecord; reflexivity.
Defined.

(** ** Byte accounting *)

Section ByteAccounting.

Variable now : HrTime.

(** One body chunk that is not the last, on a queue that is not empty
    and with nothing else deferred: it is counted on the first record. *)
Lemma body_chunk_counted (chunk : Buffer) (answer : UwsAnswer) (s : State)
    (first : PipelinedRequest) (rest : list PipelinedRequest) :
  _pendingRequests s = first :: rest ->
  nextTick s = [] ->
  _pendingRequests (body_chunk chunk false answer now s)
  = with_metadata (add_bytes (Z.of_nat (length chunk))) first :: rest
  /\ nextTick (body_chunk chunk false answer now s) = [].
Proof.
  intros Hq Hn. open_state s. subst queue ticks.
  unfold body_chunk, on_body_chunk, run_nextTick, set_nextTick, bind, get.
  cbn.
  match goal with
  | |- context [body_chunk_task _ _ _ _ ?st] =>
    destruct (body_chunk_task_first chunk false answer now st first rest eq_refl)
      as (_ & Hq' & _ & Hn')
  end.
  split; [exact (Hq' eq_refl) | exact Hn'].
Qed.

Lemma deliver_counted (chunks : list (Buffer * UwsAnswer)) (s : State)
    (first : PipelinedRequest) (rest : list PipelinedRequest) :
  _pendingRequests s = first :: rest ->
  nextTick s = [] ->
  _pendingRequests (deliver chunks now s)
  = with_metadata (add_bytes (total_length chunks)) first :: rest
  /\ nextTick (deliver chunks now s) = [].
Proof.
  revert s first. induction chunks as [|[chunk answer] later IH];
    intros s first Hq Hn.
  - cbn. split; [|exact Hn]. rewrite Hq.
    destruct first as [[req bd hs code msg [st b ht d]] cb].
    unfold with_metadata, add_bytes. cbn. rewrite Z.add_0_r. reflexivity.
  - cbn [deliver total_length].
    destruct (body_chunk_counted chunk answer s first rest Hq Hn) as (Hq1 & Hn1).
    destruct (IH _ _ Hq1 Hn1) as (Hq2 & Hn2).
    split; [|exact Hn2]. rewrite Hq2.
    unfold with_metadata, add_bytes. cbn. rewrite Z.add_assoc. reflexivity.
Qed.

(** C9.  Body chunks delivered to the record at the head of the queue:
    its [bytes] counter grows by the sum of their lengths, whatever the
    path each chunk takes in [addBody], and that is the counter of the
    record [terminateRequest] then returns.  The counter of a record is
    [0] when [scheduleSend] creates it, so for a record that was queued
    alone the counter is the sum of the lengths of its chunks.  The
    last chunk is counted before the record is taken off: the record
    that leaves has the lengths of all its chunks, the last included. *)
Theorem bytes_is_sum_of_chunks (chunks : list (Buffer * UwsAnswer)) (s : State)
    (first : PipelinedRequest) (rest : list PipelinedRequest) :
  _pendingRequests s = first :: rest ->
  nextTick s = [] ->
  (exists first',
     _pendingRequests (deliver chunks now s) = first' :: rest
     /\ key first' = key first
     /\ bytes (metadata (response first'))
        = bytes (metadata (response first)) + total_length chunks)
  /\ (forall tEnd, exists data s',
        terminateRequest tEnd (deliver chunks now s) = Return (Some data) s'
        /\ key data = key first
        /\ bytes (metadata (response data))
           = bytes (metadata (response first)) + total_length chunks)
  /\ (bytes (metadata (response first)) = 0 ->
      forall tEnd, exists data s',
        terminateRequest tEnd (deliver chunks now s) = Return (Some data) s'
        /\ bytes (metadata (response data)) = total_length chunks)
  /\ (forall last answer tEnd s1,
        addBody last answer (deliver chunks now s) = Return tt s1 ->
        exists data s2,
          terminateRequest tEnd s1 = Return (Some data) s2
          /\ body_chunk_task last true answer tEnd (deliver chunks now s)
             = Return tt s2
          /\ key data = key first
          /\ bytes (metadata (response data))
             = bytes (metadata (response first)) + total_length chunks
               + Z.of_nat (length last)).
Proof.
  intros Hq Hn.
  destruct (deliver_counted chunks s first rest Hq Hn) as (Hq' & _).
  assert (Hend : forall tEnd, exists data s',
             terminateRequest tEnd (deliver chunks now s) = Return (Some data) s'
             /\ key data = key first
             /\ bytes (metadata (response data))
                = bytes (metadata (response first)) + total_length chunks).
  { intros tEnd.
    destruct (terminateRequest_first tEnd _ _ _ Hq') as (s' & Hret & _).
    eexists _, s'. split; [exact Hret|]. split; reflexivity. }
  split; [|split; [|split]].
  - eexists. split; [exact Hq'|]. split; reflexivity.
  - exact Hend.
  - intros Hzero tEnd. destruct (Hend tEnd) as (data & s' & Hret & _ & Hbytes).
    exists data, s'. split; [exact Hret|]. rewrite Hbytes, Hzero. reflexivity.
  - intros last answer tEnd s1 Hlast.
    destruct (addBody_first last answer _ _ _ Hq') as (Hq1 & _).
    rewrite Hlast in Hq1. cbn [final] in Hq1.
    destruct (terminateRequest_first tEnd s1 _ _ Hq1) as (s2 & Hret & _).
    eexists _, s2. split; [exact Hret|].
    split; [|split; [reflexivity|]].
    + unfold body_chunk_task, bind. rewrite Hlast, Hret. reflexivity.
    + cbn. lia.
Qed.

End ByteAccounting.

(** C9 at work: a request proxied to a uWebSockets response and a
    request that is not, each the only one queued, each receiving chunks
    of 3 and 2 bytes (for the second one [addBody] throws on each chunk,
    after the count). *)
Lemma bytes_is_sum_of_chunks_witness :
  let chunks :=
    [([Byte.x01; Byte.x02; Byte.x03], mkUwsAnswer 0 true false);
     ([Byte.x04; Byte.x05], mkUwsAnswer 3 false false)] in
  let proxied :=
    final (scheduleSend (mkRequest 0 (Some 7%nat) None) 10%nat 20%nat (0, 100)
             constructor_default) in
  let plain :=
    final (scheduleSend (mkRequest 1 None None) 11%nat 21%nat (0, 100)
             constructor_default) in
  (exists data s',
     terminateRequest (1, 0) (deliver chunks (0, 0) proxied)
     = Return (Some data) s'
     /\ bytes (metadata (response data)) = 5)
  /\ (exists data s',
        terminateRequest (1, 0) (deliver chunks (0, 0) plain)
        = Return (Some data) s'
        /\ bytes (metadata (response data)) = 5).
Proof.
  intros chunks proxied plain. split.
  - destruct (bytes_is_sum_of_chunks (0, 0) chunks proxied
                (fresh (mkRequest 0 (Some 7%nat) None) 10%nat (0, 100)) []
                eq_refl eq_refl) as (_ & _ & Hfresh & _).
    exact (Hfresh eq_refl (1, 0)).
  - destruct (bytes_is_sum_of_chunks (0, 0) chunks plain
                (fresh (mkRequest 1 None None) 11%nat (0, 100)) []
                eq_refl eq_refl) as (_ & _ & Hfresh & _).
    exact (Hfresh eq_refl (1, 0)).
Defined.

(** ** Events on an empty queue *)

Section EmptyQueue.

Variable s : State.
Hypothesis Hempty : _pendingRequests s = [].

(** A ['headers'] event on an empty queue changes nothing. *)
Lemma on_headers_empty (code : Z) (message : string) (hs : Headers)
    (expectedBodySize : option Z) (tHeaders tEnd : HrTime) :
  on_headers code message hs expectedBodySize tHeaders tEnd s = Return tt s.
Proof.
  rewrite on_headers_run. f_equal. unfold headers_calls. cbn [app].
  rewrite !run_cons. cbn [snd call].
  assert (Hstatus : setStatus code message s = Return tt s)
    by (unfold setStatus, update_first, bind, get; rewrite Hempty; reflexivity).
  assert (Hheaders : setHeaders hs tHeaders s = Return tt s)
    by (unfold setHeaders, update_first, bind, get; rewrite Hempty; reflexivity).
  rewrite Hstatus. cbn [final]. rewrite Hheaders. cbn [final].
  destruct expectedBodySize as [[| |]|]; try reflexivity.
  rewrite run_cons. cbn [snd call run].
  rewrite (terminateRequest_empty tEnd s Hempty). reflexivity.
Qed.

(** The function deferred for a body chunk throws on an empty queue:
    [addBody] reads [this.peek().response] before it tests anything. *)
Lemma body_chunk_task_empty (chunk : Buffer) (isLast : bool)
    (answer : UwsAnswer) (now : HrTime) :
  body_chunk_task chunk isLast answer now s = Throw TypeError s.
Proof.
  unfold body_chunk_task, bind. rewrite (addBody_empty chunk answer s Hempty).
  reflexivity.
Qed.

End EmptyQueue.

(** C5, at the input where the code departs from it: a ['body_chunk']
    event on the empty queue of a new pipeline.  The function it defers
    throws a [TypeError] when the tick runs it. *)
Theorem body_chunk_on_empty_queue_throws :
  let s := final (on_body_chunk [Byte.x01] false constructor_default) in
  _pendingRequests s = []
  /\ nextTick s = [([Byte.x01], false)]
  /\ run_nextTick (mkUwsAnswer 0 true false) (0, 0) s
     = Throw TypeError constructor_default.
Proof.
  cbn. repeat split; reflexivity.
Qed.

(** ** Abort *)

Section Abort.

(** The body of the loop of [close()], for a record that has a response
    body stream. *)
Lemma abort_with_body (p : PipelinedRequest) (s : State) :
  has_body p ->
  exists s',
    abort p s = Return tt s'
    /\ trace s' = trace s ++ abort_events p
    /\ _pendingRequests s' = _pendingRequests s
    /\ uwsResponses s' = uwsResponses s
    /\ nextTick s' = nextTick s
    /\ _maxRequests s' = _maxRequests s.
Proof.
  intros [stream Hp]. open_state s.
  unfold abort, abort_events, bind, emit. rewrite Hp. cbn.
  destruct (req_body (request (response p))) as [rb|]; cbn;
    eexists; (split; [reflexivity|]); cbn;
    rewrite <- ?app_assoc; repeat split; reflexivity.
Qed.

(** The loop of [close()] over records that all have a response body
    stream: it returns, having made the calls of [abort_events] for each
    record in turn. *)
Lemma forEach_abort (q : list PipelinedRequest) (s : State) :
  Forall has_body q ->
  exists s',
    forEach abort q s = Return tt s'
    /\ trace s' = trace s ++ concat (map abort_events q)
    /\ _pendingRequests s' = _pendingRequests s
    /\ uwsResponses s' = uwsResponses s
    /\ nextTick s' = nextTick s
    /\ _maxRequests s' = _maxRequests s.
Proof.
  intros Hq. revert s. induction Hq as [|p q Hp _ IH]; intros s.
  - cbn. exists s. rewrite app_nil_r. repeat split; reflexivity.
  - cbn [forEach map concat]. unfold bind.
    destruct (abort_with_body p s Hp) as (s1 & -> & Ht1 & Hq1 & Hu1 & Hn1 & Hm1).
    destruct (IH s1) as (s2 & -> & Ht2 & Hq2 & Hu2 & Hn2 & Hm2).
    exists s2. split; [reflexivity|].
    rewrite Ht2, Ht1, <- app_assoc.
    repeat split; congruence.
Qed.

Lemma responded_abort_events (q : list PipelinedRequest) :
  responded (concat (map abort_events q)) = aborted q.
Proof.
  induction q as [|p q IH]; [reflexivity|].
  cbn [map concat aborted]. rewrite responded_app. fold (aborted q).
  rewrite IH. unfold abort_events.
  destruct (body (response p)), (req_body (request (response p))); reflexivity.
Qed.

(** [close()] on a queue whose records all have a response body stream:
    it returns, every record has been aborted, in queue order, and the
    queue is empty. *)
Lemma close_with_bodies (s : State) :
  Forall has_body (_pendingRequests s) ->
  exists s',
    close s = Return tt s'
    /\ trace s' = trace s ++ concat (map abort_events (_pendingRequests s))
    /\ responded (trace s') = responded (trace s) ++ aborted (_pendingRequests s)
    /\ _pendingRequests s' = [].
Proof.
  intros Hq. unfold close, bind at 1, get. unfold bind.
  destruct (forEach_abort _ s Hq) as (s1 & -> & Ht & _).
  cbn. eexists. split; [reflexivity|]. cbn.
  rewrite Ht, responded_app, responded_abort_events.
  repeat split; reflexivity.
Qed.

(** [close()] on a queue whose first record has no response body stream:
    the record's callback is called, then [body.destroy] is read from
    [undefined]; the exception leaves [close()] before the queue is
    emptied, and no other record is reached. *)
Lemma close_without_body (s : State) (first : PipelinedRequest)
    (rest : list PipelinedRequest) :
  _pendingRequests s = first :: rest ->
  body (response first) = None ->
  threw (close s) = Some TypeError
  /\ _pendingRequests (final (close s)) = first :: rest
  /\ trace (final (close s))
     = trace s
       ++ [Responded (callback first) (Some E_PIPELINE_ABORTED) (response first)].
Proof.
  intros Hq Hb. open_state s. subst queue.
  unfold close, bind, get, abort. cbn. unfold bind. cbn. rewrite Hb. cbn.
  repeat split; reflexivity.
Qed.

End Abort.

(** C2, at the input where the code departs from it: two requests sent
    with [scheduleSend], then [close()].  The records have no [body]
    (the property is commented out of the literal in [scheduleSend]), so
    [close()] throws a [TypeError] after the first callback: the second
    record's callback is not called, nothing is destroyed, and [size()]
    stays [2]. *)
Theorem close_throws_on_scheduled_records :
  let a := mkRequest 0 None None in
  let b := mkRequest 1 None None in
  let s :=
    snd (run [ScheduleSend a 10%nat 20%nat (0, 1);
              ScheduleSend b 11%nat 21%nat (0, 2)] constructor_default) in
  threw (close s) = Some TypeError
  /\ responded (trace (final (close s)))
     = [(10%nat, Some E_PIPELINE_ABORTED, response (fresh a 10%nat (0, 1)))]
  /\ invocations 11%nat (trace (final (close s))) = 0%nat
  /\ destroyed (trace (final (close s))) = []
  /\ size (final (close s)) = 2.
Proof.
  cbn. repeat split; reflexivity.
Qed.

(** ** Who calls the completion callback *)

Section CompletionCallback.

(** No method other than [close()] calls a completion callback. *)
Lemma call_responded (c : Call) (s : State) :
  responded (trace (snd (call c s))) = responded (trace s).
Proof.
  destruct c as [req rcb cb now | code message | hs now | count
                | data answer | now | u offset ok done | chunk]; unfold call.
  - destruct (scheduleSend_cases req rcb cb now s)
      as [(_ & _ & ->) | (_ & ->)]; cbn; [reflexivity|].
    rewrite responded_app. cbn. apply app_nil_r.
  - destruct (setStatus_first code message s) as (s' & -> & _ & Ht & _).
    cbn. rewrite Ht. reflexivity.
  - destruct (setHeaders_first hs now s) as (s' & -> & _ & Ht & _).
    cbn. rewrite Ht. reflexivity.
  - destruct (_pendingRequests s) as [|first rest] eqn:Hq.
    + rewrite (addByteCount_empty count s Hq). reflexivity.
    + destruct (addByteCount_first count s first rest Hq)
        as (s' & -> & _ & Ht & _).
      cbn. rewrite Ht. reflexivity.
  - destruct (_pendingRequests s) as [|first rest] eqn:Hq.
    + rewrite (addBody_empty data answer s Hq). reflexivity.
    + destruct (addBody_first data answer s first rest Hq) as (_ & Hr & _).
      exact Hr.
  - destruct (_pendingRequests s) as [|first rest] eqn:Hq.
    + rewrite (terminateRequest_empty now s Hq). reflexivity.
    + destruct (terminateRequest_first now s first rest Hq)
        as (s' & -> & _ & Ht & _).
      cbn. rewrite Ht. reflexivity.
  - destruct (writable_queue u offset ok done s) as (_ & Hr & _). exact Hr.
  - cbn. rewrite responded_app. cbn. apply app_nil_r.
Qed.

Lemma run_responded (calls : list Call) (s : State) :
  responded (trace (snd (run calls s))) = responded (trace s).
Proof.
  revert s. induction calls as [|c later IH]; intros s; [reflexivity|].
  rewrite run_cons. cbn [snd]. rewrite IH. apply call_responded.
Qed.

Lemma body_chunk_task_responded (chunk : Buffer) (isLast : bool)
    (answer : UwsAnswer) (now : HrTime) (s : State) :
  responded (trace (final (body_chunk_task chunk isLast answer now s)))
  = responded (trace s).
Proof.
  destruct (_pendingRequests s) as [|first rest] eqn:Hq.
  - rewrite (body_chunk_task_empty s Hq). reflexivity.
  - destruct (body_chunk_task_first chunk isLast answer now s first rest Hq)
      as (_ & _ & Hr & _).
    exact Hr.
Qed.

End CompletionCallback.

(** C1, as amended.  A completion callback is called by [close()] and
    by nothing else.
    - No run of the other methods, no ['headers'] event and no deferred
      body chunk calls one: a record that [terminateRequest] takes off
      is handed back to the caller and its callback is not called.
    - [close()] on a queue whose records all have a response body stream
      calls the callback of each queued record once, with the
      [E_PIPELINE_ABORTED] error and the record's response, and empties
      the queue, so that closing again calls nothing.
    - A record taken off by [terminateRequest] is not called back by a
      later [close()], which calls back the records behind it. *)
Theorem completion_callback_only_on_close :
  (forall calls s,
     responded (trace (snd (run calls s))) = responded (trace s))
  /\ (forall code message hs expectedBodySize tHeaders tEnd s,
        responded
          (trace (final (on_headers code message hs expectedBodySize
                           tHeaders tEnd s)))
        = responded (trace s))
  /\ (forall chunk isLast answer now s,
        responded (trace (final (body_chunk_task chunk isLast answer now s)))
        = responded (trace s))
  /\ (forall s,
        Forall has_body (_pendingRequests s) ->
        exists s',
          close s = Return tt s'
          /\ responded (trace s')
             = responded (trace s) ++ aborted (_pendingRequests s)
          /\ _pendingRequests s' = []
          /\ responded (trace (final (close s'))) = responded (trace s'))
  /\ (forall now s first rest,
        _pendingRequests s = first :: rest ->
        Forall has_body rest ->
        exists data s1 s2,
          terminateRequest now s = Return (Some data) s1
          /\ key data = key first
          /\ close s1 = Return tt s2
          /\ responded (trace s2) = responded (trace s) ++ aborted rest
          /\ _pendingRequests s2 = []).
Proof.
  split; [exact run_responded|].
  split; [|split; [exact body_chunk_task_responded|split]].
  - intros code message hs ebs tHeaders tEnd s.
    rewrite on_headers_run. apply run_responded.
  - intros s Hq.
    destruct (close_with_bodies s Hq) as (s' & Hret & _ & Hr & Hq').
    exists s'. repeat (split; [assumption|]).
    assert (Hnone : Forall has_body (_pendingRequests s'))
      by (rewrite Hq'; constructor).
    destruct (close_with_bodies s' Hnone) as (s'' & -> & _ & Hr' & _).
    cbn. rewrite Hr', Hq'. apply app_nil_r.
  - intros now s first rest Hq Hrest.
    destruct (terminateRequest_first now s first rest Hq)
      as (s1 & Hret & Hq1 & Ht1 & _).
    rewrite <- Hq1 in Hrest.
    destruct (close_with_bodies s1 Hrest) as (s2 & Hclose & _ & Hr & Hq2).
    eexists _, s1, s2. split; [exact Hret|]. split; [reflexivity|].
    split; [exact Hclose|]. split; [|exact Hq2].
    rewrite Hr, Ht1, Hq1. reflexivity.
Qed.

(** C1 as stated fails: a request is sent, its response comes without a
    body and the record is terminated, then the connection is closed.
    The completion callback of the request was not called once: it was
    never called. *)
Lemma terminated_record_is_not_called_back :
  let s1 :=
    final (scheduleSend (mkRequest 0 None None) 10%nat 20%nat (0, 100)
             constructor_default) in
  let s2 :=
    final (on_headers 204 "No Content" ∅ (Some 0) (0, 500) (0, 900) s1) in
  _pendingRequests s1 = [fresh (mkRequest 0 None None) 10%nat (0, 100)]
  /\ _pendingRequests s2 = []
  /\ close s2 = Return tt s2
  /\ ~ invocations 10%nat (trace (final (close s2))) = 1%nat.
Proof.
  cbn. repeat split; try reflexivity. discriminate.
Qed.

(** C1 as amended at work: three records whose responses were given body
    streams; the first is terminated, then the connection is closed. *)
Lemma completion_callback_only_on_close_witness :
  let a := with_body 100%nat (fresh (mkRequest 0 None None) 10%nat (0, 1)) in
  let b := with_body 101%nat (fresh (mkRequest 1 None (Some 201%nat)) 11%nat (0, 2)) in
  let c := with_body 102%nat (fresh (mkRequest 2 None None) 12%nat (0, 3)) in
  let s :=
    {| _maxRequests := 1000;
       _pendingRequests := [a; b; c];
       uwsResponses := ∅;
       nextTick := [];
       shifted := [];
       trace := [] |} in
  (_pendingRequests s = a :: [b; c] /\ Forall has_body [b; c])
  /\ exists data s1 s2,
       terminateRequest (1, 0) s = Return (Some data) s1
       /\ close s1 = Return tt s2
       /\ invocations 10%nat (trace s2) = 0%nat
       /\ invocations 11%nat (trace s2) = 1%nat
       /\ invocations 12%nat (trace s2) = 1%nat
       /\ _pendingRequests s2 = [].
Proof.
  intros a b c s.
  assert (Hq : _pendingRequests s = a :: [b; c]) by reflexivity.
  assert (Hrest : Forall has_body [b; c])
    by (repeat constructor; eexists; reflexivity).
  split; [split; assumption|].
  destruct completion_callback_only_on_close as (_ & _ & _ & _ & Hboth).
  destruct (Hboth (1, 0) s a [b; c] Hq Hrest)
    as (data & s1 & s2 & Hret & _ & Hclose & Hr & Hq2).
  exists data, s1, s2. unfold invocations. rewrite Hr.
  repeat split; try assumption; reflexivity.
Defined.

(** ** Relay to a uWebSockets response *)

Section Relay.

(** From a begin index that is not negative, [subarray] drops that many
    bytes: what it keeps and what it leaves out make up the buffer. *)
Lemma subarray_drop (data : Buffer) (begin : Z) :
  0 <= begin ->
  subarray data begin = drop (Z.to_nat begin) data
  /\ take (Z.to_nat begin) data ++ subarray data begin = data.
Proof.
  intros Hbegin. unfold subarray.
  assert (Hdrop : drop (Z.to_nat (Z.min begin (Z.of_nat (length data)))) data
                  = drop (Z.to_nat begin) data).
  { destruct (Z.le_gt_cases begin (Z.of_nat (length data))) as [Hin | Hout].
    - rewrite Z.min_l by exact Hin. reflexivity.
    - rewrite Z.min_r by lia. rewrite Nat2Z.id.
      rewrite !drop_ge by lia. reflexivity. }
  destruct (begin <? 0) eqn:Hneg; [apply Z.ltb_lt in Hneg; lia|].
  rewrite Hdrop. split; [reflexivity | apply take_drop].
Qed.

(** [addBody] on the path where [tryEnd] answers [[false, false]]. *)
Lemma addBody_not_accepted (data : Buffer) (answer : UwsAnswer)
    (s : State) (first : PipelinedRequest) (rest : list PipelinedRequest)
    (u : UwsRef) :
  _pendingRequests s = first :: rest ->
  req_response (request (response first)) = Some u ->
  tryEnd_done answer = false ->
  tryEnd_ok answer = false ->
  exists s',
    addBody data answer s = Return tt s'
    /\ trace s'
       = trace s
         ++ [TryEnd u data (headers (response first) !! "content-length")]
    /\ uws_of s' u
       = {| abOffset := Some (writeOffset answer);
            onWritable :=
              Some {| wh_data := data;
                      wh_headers := headers (response first) |} |}.
Proof.
  intros Hq Hu Hdone Hok. open_state s. subst queue.
  unfold addBody, addByteCount, peek, update_first, bind, get.
  cbn. rewrite Hu. cbn. rewrite Hdone, Hok. cbn.
  eexists. split; [reflexivity|]. split; [reflexivity|].
  unfold uws_of. cbn. rewrite lookup_insert_eq. reflexivity.
Qed.

(** A writable notification on a uWebSockets response that holds a
    saved offset and a handler. *)
Lemma writable_registered (u : UwsRef) (offset : Z) (ok done : bool)
    (s : State) (saved : Z) (handler : WritableHandler) :
  uws_of s u = {| abOffset := Some saved; onWritable := Some handler |} ->
  exists s',
    writable u offset ok done s = Return (Some ok) s'
    /\ trace s'
       = trace s
         ++ [TryEnd u (subarray (wh_data handler) (offset - saved))
               (wh_headers handler !! "content-length")]
    /\ _pendingRequests s' = _pendingRequests s
    /\ uwsResponses s' = uwsResponses s.
Proof.
  intros Hreg. unfold writable, bind, get. rewrite Hreg. cbn.
  eexists. repeat split; reflexivity.
Qed.

(** One chunk on its own.  A chunk relayed to the uWebSockets response
    [u] of the first record, when [tryEnd] answers that the response is
    not done and the chunk was not accepted whole: [addBody] returns,
    having called [tryEnd] with the whole chunk, saved in [abOffset] the
    write offset read before that call, and registered a handler for
    [onWritable].  In any state where [u] still holds that offset and
    that handler, a writable notification at [offset] calls [tryEnd]
    once, with [data.subarray(offset - abOffset)] and the same
    [content-length], and the handler returns the [ok] of that call. *)
Lemma relay_retries_from_saved_offset (data : Buffer) (answer : UwsAnswer)
    (s : State) (first : PipelinedRequest) (rest : list PipelinedRequest)
    (u : UwsRef) :
  _pendingRequests s = first :: rest ->
  req_response (request (response first)) = Some u ->
  tryEnd_done answer = false ->
  tryEnd_ok answer = false ->
  exists s',
    addBody data answer s = Return tt s'
    /\ trace s'
       = trace s
         ++ [TryEnd u data (headers (response first) !! "content-length")]
    /\ abOffset (uws_of s' u) = Some (writeOffset answer)
    /\ onWritable (uws_of s' u)
       = Some {| wh_data := data; wh_headers := headers (response first) |}
    /\ forall (later : State) (offset : Z) (ok done : bool),
         uws_of later u = uws_of s' u ->
         let retried := subarray data (offset - writeOffset answer) in
         exists later',
           writable u offset ok done later = Return (Some ok) later'
           /\ trace later'
              = trace later
                ++ [TryEnd u retried
                      (headers (response first) !! "content-length")]
           /\ _pendingRequests later' = _pendingRequests later
           /\ uwsResponses later' = uwsResponses later
           /\ (writeOffset answer <= offset ->
               retried = drop (Z.to_nat (offset - writeOffset answer)) data
               /\ take (Z.to_nat (offset - writeOffset answer)) data ++ retried
                  = data).
Proof.
  intros Hq Hu Hdone Hok.
  destruct (addBody_not_accepted data answer s first rest u Hq Hu Hdone Hok)
    as (s' & Hret & Ht & Hreg).
  exists s'. split; [exact Hret|]. split; [exact Ht|].
  rewrite Hreg. split; [reflexivity|]. split; [reflexivity|].
  intros later offset ok done Hlater retried.
  destruct (writable_registered u offset ok done later _ _ Hlater)
    as (later' & Hw & Ht' & Hq' & Hu').
  exists later'. split; [exact Hw|]. split; [exact Ht'|].
  split; [exact Hq'|]. split; [exact Hu'|].
  intros Hoffset. apply subarray_drop. lia.
Qed.

(** Notifications on a uWebSockets response that holds a saved offset
    and a handler: the registration stays, and each notification retries
    from its own offset. *)
Lemma notifications_registered (u : UwsRef) (ns : list (Z * bool * bool))
    (s : State) (saved : Z) (handler : WritableHandler) :
  uws_of s u = {| abOffset := Some saved; onWritable := Some handler |} ->
  uws_of (notifications u ns s) u = uws_of s u
  /\ trace (notifications u ns s)
     = trace s
       ++ map (fun n =>
                 TryEnd u
                   (subarray (wh_data handler) (fst (fst n) - saved))
                   (wh_headers handler !! "content-length"))
            ns
  /\ _pendingRequests (notifications u ns s) = _pendingRequests s.
Proof.
  revert s. induction ns as [|[[offset ok] done] later IH]; intros s Hreg.
  - cbn. rewrite app_nil_r. repeat split; reflexivity.
  - cbn [notifications map fst].
    destruct (writable_registered u offset ok done s saved handler Hreg)
      as (s1 & Hret & Ht1 & Hq1 & Hu1).
    rewrite Hret. cbn [final].
    assert (Hreg1 : uws_of s1 u
                    = {| abOffset := Some saved; onWritable := Some handler |})
      by (unfold uws_of in *; rewrite Hu1; exact Hreg).
    destruct (IH s1 Hreg1) as (IHu & IHt & IHq).
    rewrite IHu, IHt, IHq, Ht1, Hq1, Hreg1, Hreg, <- app_assoc.
    repeat split; reflexivity.
Qed.

End Relay.

(** C7, at the input where the code departs from it.  A request is
    proxied to the uWebSockets response [7].  The chunk [01 02 03 04] is
    written from offset [100] and not accepted whole: the offset is
    saved and a handler is registered for the chunk.  The chunk [05 06]
    arrives before the response is writable again (nothing holds the
    chunks back).
    - If it is not accepted whole either, its offset and its handler
      replace those of the first chunk: every notification from then on
      retries bytes of [05 06], and the bytes left of the first chunk
      are never passed to [tryEnd] again.
    - If it is accepted whole, the first registration stands while the
      write offset has moved on to [104]: the notification at [104]
      retries [data.subarray(4)], the empty chunk.
    Either way the bytes [03 04] that the first [tryEnd] did not take
    are dropped. *)
Theorem unsent_bytes_are_lost_to_a_later_chunk :
  let s :=
    final (scheduleSend (mkRequest 0 (Some 7%nat) None) 10%nat 20%nat (0, 100)
             constructor_default) in
  let a := [Byte.x01; Byte.x02; Byte.x03; Byte.x04] in
  let b := [Byte.x05; Byte.x06] in
  let s1 := final (addBody a (mkUwsAnswer 100 false false) s) in
  let both_refused := final (addBody b (mkUwsAnswer 102 false false) s1) in
  let second_taken := final (addBody b (mkUwsAnswer 102 true false) s1) in
  uws_of s1 7%nat
  = {| abOffset := Some 100;
       onWritable := Some {| wh_data := a; wh_headers := ∅ |} |}
  /\ uws_of both_refused 7%nat
     = {| abOffset := Some 102;
          onWritable := Some {| wh_data := b; wh_headers := ∅ |} |}
  /\ (forall ns : list (Z * bool * bool),
        trace (notifications 7%nat ns both_refused)
        = trace both_refused
          ++ map (fun n => TryEnd 7%nat (subarray b (fst (fst n) - 102)) None)
               ns)
  /\ trace (final (writable 7%nat 103 true false both_refused))
     <> trace both_refused ++ [TryEnd 7%nat (subarray a (103 - 100)) None]
  /\ uws_of second_taken 7%nat = uws_of s1 7%nat
  /\ trace (final (writable 7%nat 104 true false second_taken))
     = trace second_taken ++ [TryEnd 7%nat [] None].
Proof.
  intros s a b s1 both_refused second_taken.
  assert (Hreg : uws_of both_refused 7%nat
                 = {| abOffset := Some 102;
                      onWritable :=
                        Some {| wh_data := b; wh_headers := ∅ |} |})
    by reflexivity.
  split; [reflexivity|]. split; [exact Hreg|].
  split; [|split; [|split; reflexivity]].
  - intros ns.
    destruct (notifications_registered 7%nat ns both_refused 102 _ Hreg)
      as (_ & Ht & _).
    exact Ht.
  - cbn. intros Heq. apply app_inv_head in Heq. discriminate.
Qed.


(** * Further properties *)

(** ** Capacity *)

Section Capacity.

(** What one call does to the length of the queue and to the maximum. *)
Lemma call_size (c : Call) (s : State) :
  _maxRequests (snd (call c s)) = _maxRequests s
  /\ size (snd (call c s))
     = size s + Z.of_nat (length (enqueued (fst (call c s))))
       - Z.of_nat (length (dequeued (fst (call c s))))
  /\ (enqueued (fst (call c s)) <> [] ->
      ~ (0 < _maxRequests s /\ _maxRequests s <= size s)).
Proof.
  unfold size.
  destruct c as [req rcb cb now | code message | hs now | count
                | data answer | now | u offset ok done | chunk]; unfold call.
  - destruct (scheduleSend_cases req rcb cb now s)
      as [(_ & _ & ->) | (Hnot & ->)]; cbn.
    + split; [reflexivity|]. split; [lia | congruence].
    + rewrite length_app. cbn. split; [reflexivity|].
      split; [lia | intros _; exact Hnot].
  - destruct (setStatus_first code message s) as (s' & -> & Hq & _ & _ & _ & Hm).
    cbn. rewrite Hq, Hm. split; [reflexivity|].
    split; [destruct (_pendingRequests s); cbn; lia | congruence].
  - destruct (setHeaders_first hs now s) as (s' & -> & Hq & _ & _ & _ & Hm).
    cbn. rewrite Hq, Hm. split; [reflexivity|].
    split; [destruct (_pendingRequests s); cbn; lia | congruence].
  - destruct (_pendingRequests s) as [|first rest] eqn:Hq.
    + rewrite (addByteCount_empty count s Hq). cbn. rewrite Hq.
      split; [reflexivity|]. split; [cbn; lia | congruence].
    + destruct (addByteCount_first count s first rest Hq)
        as (s' & -> & Hq' & _ & _ & _ & Hm).
      cbn. rewrite Hq', Hm. split; [reflexivity|].
      split; [cbn; lia | congruence].
  - destruct (_pendingRequests s) as [|first rest] eqn:Hq.
    + rewrite (addBody_empty data answer s Hq). cbn. rewrite Hq.
      split; [reflexivity|]. split; [cbn; lia | congruence].
    + destruct (addBody_first data answer s first rest Hq) as (Hq' & _ & _ & Hm).
      cbn [fst snd quiet enqueued dequeued length]. rewrite Hq', Hm.
      split; [reflexivity|]. split; [cbn; lia | congruence].
  - destruct (_pendingRequests s) as [|first rest] eqn:Hq.
    + rewrite (terminateRequest_empty now s Hq). cbn. rewrite Hq.
      split; [reflexivity|]. split; [cbn; lia | congruence].
    + destruct (terminateRequest_first now s first rest Hq)
        as (s' & -> & Hq' & _ & _ & _ & Hm).
      cbn. rewrite Hq', Hm. split; [reflexivity|].
      split; [lia | congruence].
  - destruct (writable_queue u offset ok done s) as (Hq & _ & _ & Hm).
    cbn [fst snd quiet enqueued dequeued length]. rewrite Hq, Hm.
    split; [reflexivity|]. split; [lia | congruence].
  - cbn. split; [reflexivity|]. split; [lia | congruence].
Qed.

(** One [scheduleSend] call of a series: refused on a full queue,
    admitted otherwise. *)
Lemma send_call_cases (x : Send) (s : State) :
  (0 < _maxRequests s /\ _maxRequests s <= size s
   /\ call (send_call x) s = (quiet, s))
  \/ (~ (0 < _maxRequests s /\ _maxRequests s <= size s)
      /\ exists s1,
           call (send_call x) s
           = ({| enqueued := [send_record x]; dequeued := [] |}, s1)
           /\ _maxRequests s1 = _maxRequests s
           /\ _pendingRequests s1 = _pendingRequests s ++ [send_record x]
           /\ accepted (trace s1) = accepted (trace s) ++ [send_callback x]
           /\ size s1 = size s + 1).
Proof.
  unfold send_call, call.
  destruct (scheduleSend_cases (send_request x) (send_responseCallback x)
              (send_callback x) (send_now x) s)
    as [(Hpos & Hfull & ->) | (Hfree & ->)].
  - left. repeat split; assumption.
  - right. split; [exact Hfree|]. eexists. split; [reflexivity|].
    cbn. rewrite accepted_app. unfold size. cbn. rewrite length_app. cbn.
    repeat split; try reflexivity. lia.
Qed.

(** X1.  With [maxRequests = 0] nothing is refused: any number of
    [scheduleSend] calls all return, the queue ends with their records
    in call order, and each acknowledgement callback is called, in call
    order. *)
Theorem unlimited_pipeline_admits_all (sends : list Send) (s : State) :
  _maxRequests s = 0 ->
  _pendingRequests (snd (run (map send_call sends) s))
  = _pendingRequests s ++ map send_record sends
  /\ enqueued (fst (run (map send_call sends) s)) = map send_record sends
  /\ accepted (trace (snd (run (map send_call sends) s)))
     = accepted (trace s) ++ map send_callback sends
  /\ size (snd (run (map send_call sends) s))
     = size s + Z.of_nat (length sends).
Proof.
  revert s. induction sends as [|x later IH]; intros s Hmax.
  - cbn. rewrite !app_nil_r. repeat split; try reflexivity. lia.
  - cbn [map]. rewrite run_cons.
    destruct (send_call_cases x s)
      as [(Hpos & _) | (_ & s1 & -> & Hmax' & Hq & Hacc & Hsize)]; [lia|].
    rewrite Hmax in Hmax'.
    destruct (IH _ Hmax') as (IHq & IHe & IHa & IHs).
    cbn [fst snd enqueued log_app].
    rewrite IHq, IHe, IHa, IHs, Hq, Hacc, Hsize.
    cbn [length map]. rewrite <- !app_assoc. cbn [app].
    repeat split; try reflexivity. lia.
Qed.

(** X2.  With a positive maximum, a queue that is within the maximum
    stays within it over any run of calls, and no call changes the
    maximum. *)
Theorem queue_stays_within_maximum (calls : list Call) (s : State) :
  0 < _maxRequests s ->
  size s <= _maxRequests s ->
  size (snd (run calls s)) <= _maxRequests s
  /\ _maxRequests (snd (run calls s)) = _maxRequests s.
Proof.
  revert s. induction calls as [|c later IH]; intros s Hpos Hin.
  - cbn. split; [exact Hin | reflexivity].
  - rewrite run_cons. cbn [snd].
    destruct (call_size c s) as (Hm & Hsize & Hadmit).
    assert (Hin' : size (snd (call c s)) <= _maxRequests (snd (call c s))).
    { rewrite Hm, Hsize.
      destruct (enqueued (fst (call c s))) as [|p [|p' more]] eqn:He.
      - cbn. lia.
      - assert (Hfree : ~ (0 < _maxRequests s /\ _maxRequests s <= size s))
          by (apply Hadmit; discriminate).
        cbn. lia.
      - exfalso. clear - He. destruct c; unfold call in He; cbn in He;
          repeat match type of He with
                 | context [match ?o with _ => _ end] => destruct o
                 end; cbn in He; discriminate. }
    rewrite <- Hm in Hpos.
    destruct (IH _ Hpos Hin') as (IHsize & IHmax).
    rewrite IHmax, Hm in *. split; [exact IHsize | reflexivity].
Qed.

(** X3.  With a positive maximum, of a series of [scheduleSend] calls
    the first ones are admitted until the queue is full and all the
    others are refused: the records put on the queue are those of the
    first [maxRequests - size()] calls. *)
Theorem admits_until_full (sends : list Send) (s : State) :
  0 < _maxRequests s ->
  size s <= _maxRequests s ->
  let room := Z.to_nat (_maxRequests s - size s) in
  enqueued (fst (run (map send_call sends) s))
  = map send_record (take room sends)
  /\ _pendingRequests (snd (run (map send_call sends) s))
     = _pendingRequests s ++ map send_record (take room sends)
  /\ accepted (trace (snd (run (map send_call sends) s)))
     = accepted (trace s) ++ map send_callback (take room sends)
  /\ size (snd (run (map send_call sends) s))
     = Z.min (size s + Z.of_nat (length sends)) (_maxRequests s).
Proof.
  revert s. induction sends as [|x later IH]; intros s Hpos Hin room.
  - cbn. rewrite take_nil. cbn. rewrite !app_nil_r.
    repeat split; try reflexivity. lia.
  - cbn [map]. rewrite run_cons.
    destruct (send_call_cases x s)
      as [(_ & Hfull & ->) | (Hfree & s1 & -> & Hm1 & Hq1 & Ha1 & Hs1)].
    + cbn [fst snd log_app enqueued quiet app].
      assert (Hroom : room = 0%nat) by (unfold room; lia).
      destruct (IH s Hpos Hin) as (IHe & IHq & IHa & IHs).
      fold room in IHe, IHq, IHa. rewrite Hroom in *.
      rewrite take_0 in *. cbn [map] in *.
      rewrite IHe, IHq, IHa, IHs. cbn [length].
      repeat split; try reflexivity. lia.
    + cbn [fst snd].
      assert (Hpos1 : 0 < _maxRequests s1) by (rewrite Hm1; exact Hpos).
      assert (Hin1 : size s1 <= _maxRequests s1) by lia.
      destruct (IH s1 Hpos1 Hin1) as (IHe & IHq & IHa & IHs).
      assert (Hroom : room = S (Z.to_nat (_maxRequests s1 - size s1)))
        by (unfold room; lia).
      rewrite Hroom. cbn [take map log_app enqueued app].
      rewrite IHe, IHq, IHa, IHs, Hq1, Ha1, Hs1, Hm1.
      rewrite <- !app_assoc. cbn [app length].
      repeat split; try reflexivity. lia.
Qed.

(** X4.  Whenever [acceptsMoreRequests()] is true, [scheduleSend]
    returns, whatever the maximum is, negative values included. *)
Theorem accepting_implies_admitted (req : Request)
    (responseCallback onAccepted : Callback) (now : HrTime) (s : State) :
  acceptsMoreRequests s = true ->
  exists s',
    scheduleSend req responseCallback onAccepted now s = Return tt s'
    /\ size s' = size s + 1.
Proof.
  intros Hacc. unfold acceptsMoreRequests in Hacc.
  apply orb_true_iff in Hacc.
  destruct (scheduleSend_cases req responseCallback onAccepted now s)
    as [(Hpos & Hfull & _) | (_ & ->)].
  - exfalso. unfold size in Hfull.
    destruct Hacc as [Hz | Hlt]; [apply Z.eqb_eq in Hz | apply Z.ltb_lt in Hlt];
      lia.
  - eexists. split; [reflexivity|]. unfold size. cbn.
    rewrite length_app. cbn. lia.
Qed.

(** X5.  Over any run of calls, [size()] is what it was, plus the number
    of records put on, minus the number of records taken off. *)
Theorem size_is_sent_minus_terminated (calls : list Call) (s : State) :
  size (snd (run calls s))
  = size s + Z.of_nat (length (enqueued (fst (run calls s))))
    - Z.of_nat (length (dequeued (fst (run calls s)))).
Proof.
  pose proof (run_fifo calls s) as Hfifo.
  apply (f_equal (@length _)) in Hfifo.
  rewrite !length_app, !length_map in Hfifo. unfold size. lia.
Qed.

End Capacity.

(** ** Where the body goes *)

Section BodyPaths.

Variable now : HrTime.

Lemma tried_app (t u : list Event) : tried (t ++ u) = tried t ++ tried u.
Proof.
  induction t as [|e t IH]; [reflexivity|].
  destruct e; cbn; rewrite IH; reflexivity.
Qed.

Lemma pushed_app (t u : list Event) : pushed (t ++ u) = pushed t ++ pushed u.
Proof.
  induction t as [|e t IH]; [reflexivity|].
  destruct e; cbn; rewrite IH; reflexivity.
Qed.

(** One chunk for a first record that is proxied to the uWebSockets
    response [u]. *)
Lemma body_chunk_proxied (chunk : Buffer) (answer : UwsAnswer) (s : State)
    (first : PipelinedRequest) (rest : list PipelinedRequest) (u : UwsRef) :
  _pendingRequests s = first :: rest ->
  nextTick s = [] ->
  req_response (request (response first)) = Some u ->
  trace (body_chunk chunk false answer now s)
  = trace s ++ [TryEnd u chunk (headers (response first) !! "content-length")]
  /\ (tryEnd_done answer = true \/ tryEnd_ok answer = true ->
      uwsResponses (body_chunk chunk false answer now s) = uwsResponses s).
Proof.
  intros Hq Hn Hu. open_state s. subst queue ticks.
  unfold body_chunk, on_body_chunk, run_nextTick, set_nextTick,
    body_chunk_task, addBody, addByteCount, peek, update_first, bind, get.
  cbn. rewrite Hu. cbn.
  destruct (tryEnd_done answer), (tryEnd_ok answer); cbn;
    (split; [reflexivity|]); intros [H | H]; try discriminate; reflexivity.
Qed.

(** One chunk for a first record that is not proxied and has a response
    body stream. *)
Lemma body_chunk_streamed (chunk : Buffer) (answer : UwsAnswer) (s : State)
    (first : PipelinedRequest) (rest : list PipelinedRequest)
    (stream : StreamRef) :
  _pendingRequests s = first :: rest ->
  nextTick s = [] ->
  req_response (request (response first)) = None ->
  body (response first) = Some stream ->
  trace (body_chunk chunk false answer now s) = trace s ++ [Push stream chunk]
  /\ uwsResponses (body_chunk chunk false answer now s) = uwsResponses s.
Proof.
  intros Hq Hn Hu Hb. open_state s. subst queue ticks.
  unfold body_chunk, on_body_chunk, run_nextTick, set_nextTick,
    body_chunk_task, addBody, addByteCount, peek, update_first, bind, get.
  cbn. rewrite Hu. cbn. rewrite Hb. cbn. split; reflexivity.
Qed.

(** X6.  The body chunks of a request proxied to a uWebSockets response
    are each passed to [tryEnd] once, whole and in the order they came,
    with the [content-length] header of the record as total size,
    whatever [tryEnd] answers; unless some answer is [[false, false]],
    nothing is saved on the uWebSockets response and no handler is
    registered.  Nothing is pushed to a body stream. *)
Theorem proxied_body_is_relayed_in_order (chunks : list (Buffer * UwsAnswer))
    (s : State) (first : PipelinedRequest) (rest : list PipelinedRequest)
    (u : UwsRef) :
  _pendingRequests s = first :: rest ->
  nextTick s = [] ->
  req_response (request (response first)) = Some u ->
  trace (deliver chunks now s)
  = trace s
    ++ map (fun c =>
              TryEnd u (fst c) (headers (response first) !! "content-length"))
         chunks
  /\ pushed (trace (deliver chunks now s)) = pushed (trace s)
  /\ (Forall (fun c => tryEnd_done (snd c) = true \/ tryEnd_ok (snd c) = true)
        chunks ->
      uwsResponses (deliver chunks now s) = uwsResponses s).
Proof.
  revert s first. induction chunks as [|[chunk answer] later IH];
    intros s first Hq Hn Hu.
  - cbn. rewrite app_nil_r. repeat split; reflexivity.
  - cbn [deliver map fst snd].
    destruct (body_chunk_counted now chunk answer s first rest Hq Hn)
      as (Hq1 & Hn1).
    destruct (body_chunk_proxied chunk answer s first rest u Hq Hn Hu)
      as (Ht1 & Hu1).
    destruct (IH _ _ Hq1 Hn1 Hu) as (IHt & IHp & IHu).
    cbn [with_metadata response headers] in IHt.
    rewrite IHp, IHt, !Ht1, pushed_app, <- app_assoc. cbn [app pushed].
    rewrite app_nil_r. split; [reflexivity|]. split; [reflexivity|].
    intros Hall. apply Forall_cons in Hall. destruct Hall as [Hthis Hlater].
    rewrite (IHu Hlater). apply Hu1. exact Hthis.
Qed.

(** X7.  The body chunks of a request that is not proxied, and whose
    response has a body stream, are each pushed to that stream, whole
    and in the order they came; [tryEnd] is never called and nothing is
    kept on any uWebSockets response. *)
Theorem streamed_body_is_pushed_in_order (chunks : list (Buffer * UwsAnswer))
    (s : State) (first : PipelinedRequest) (rest : list PipelinedRequest)
    (stream : StreamRef) :
  _pendingRequests s = first :: rest ->
  nextTick s = [] ->
  req_response (request (response first)) = None ->
  body (response first) = Some stream ->
  trace (deliver chunks now s)
  = trace s ++ map (fun c => Push stream (fst c)) chunks
  /\ tried (trace (deliver chunks now s)) = tried (trace s)
  /\ uwsResponses (deliver chunks now s) = uwsResponses s.
Proof.
  revert s first. induction chunks as [|[chunk answer] later IH];
    intros s first Hq Hn Hu Hb.
  - cbn. rewrite app_nil_r. repeat split; reflexivity.
  - cbn [deliver map fst].
    destruct (body_chunk_counted now chunk answer s first rest Hq Hn)
      as (Hq1 & Hn1).
    destruct (body_chunk_streamed chunk answer s first rest stream Hq Hn Hu Hb)
      as (Ht1 & Hu1).
    destruct (IH _ _ Hq1 Hn1 Hu Hb) as (IHt & IHp & IHu).
    rewrite IHp, IHt, IHu, !Ht1, Hu1, tried_app, <- app_assoc. cbn [app tried].
    rewrite app_nil_r. repeat split; reflexivity.
Qed.

End BodyPaths.

(** X8.  [addBody] writes [abOffset] and the [onWritable] handler of the
    uWebSockets response of the first record only: what is kept on any
    other one is as it was, however [addBody] ends. *)
Theorem addBody_keeps_other_registrations (data : Buffer) (answer : UwsAnswer)
    (s : State) (other : UwsRef) :
  (forall first rest,
     _pendingRequests s = first :: rest ->
     req_response (request (response first)) <> Some other) ->
  uwsResponses (final (addBody data answer s)) !! other
  = uwsResponses s !! other.
Proof.
  intros Hother. open_state s.
  unfold addBody, addByteCount, peek, update_first, bind, get. cbn.
  destruct queue as [|first rest]; cbn; [reflexivity|].
  specialize (Hother first rest eq_refl).
  destruct (req_response (request (response first))) as [u|]; cbn.
  - assert (Hne : u <> other) by congruence.
    destruct (tryEnd_done answer), (tryEnd_ok answer); cbn; try reflexivity.
    rewrite !lookup_insert_ne by exact Hne. reflexivity.
  - destruct (body (response first)); reflexivity.
Qed.

(** X9.  Writable notifications do not use up the registration: after
    any number of them the saved offset and the handler are the same,
    every notification has called [tryEnd] once, in order, with the
    bytes of the registered chunk from its own offset on, and the queue
    is as it was. *)
Theorem notifications_retry_from_each_offset (u : UwsRef)
    (ns : list (Z * bool * bool)) (s : State) (saved : Z)
    (handler : WritableHandler) :
  uws_of s u = {| abOffset := Some saved; onWritable := Some handler |} ->
  uws_of (notifications u ns s) u = uws_of s u
  /\ trace (notifications u ns s)
     = trace s
       ++ map (fun n =>
                 TryEnd u
                   (subarray (wh_data handler) (fst (fst n) - saved))
                   (wh_headers handler !! "content-length"))
            ns
  /\ _pendingRequests (notifications u ns s) = _pendingRequests s.
Proof.
  apply notifications_registered.
Qed.

(** ** Events in sequence *)

Section EventSequences.

(** X10.  The total size given to [tryEnd] is the [content-length] of
    the last ['headers'] event: after such an event (with a body
    expected) on a record proxied to [u], a chunk is passed to [tryEnd]
    with the [content-length] header of that event, [undefined] when the
    event has none. *)
Theorem headers_give_the_total_size (code : Z) (message : string)
    (hs : Headers) (expectedBodySize : option Z) (tHeaders tEnd : HrTime)
    (data : Buffer) (answer : UwsAnswer) (s : State)
    (first : PipelinedRequest) (rest : list PipelinedRequest) (u : UwsRef) :
  _pendingRequests s = first :: rest ->
  req_response (request (response first)) = Some u ->
  expectedBodySize <> Some 0 ->
  let s1 :=
    final (on_headers code message hs expectedBodySize tHeaders tEnd s) in
  exists s2,
    addBody data answer s1 = Return tt s2
    /\ trace s2 = trace s ++ [TryEnd u data (hs !! "content-length")].
Proof.
  intros Hq Hu Hsize. open_state s. subst queue.
  unfold on_headers, setStatus, setHeaders, update_first, addBody,
    addByteCount, peek, bind, get.
  destruct expectedBodySize as [[| |]|]; [congruence| | |]; cbn;
    rewrite Hu; cbn;
    destruct (tryEnd_done answer), (tryEnd_ok answer); cbn;
    eexists; split; reflexivity.
Qed.

(** X11.  The ['headers'] listener writes at once while the
    ['body_chunk'] listener defers.  When the last chunk of the first
    record has been raised but its tick has not run yet, a ['headers']
    event (with a body expected) is written to that same record: it is
    still first.  The tick then relays the chunk with the
    [content-length] of the later event and takes the record off; the
    records behind it have not been written to. *)
Theorem headers_before_the_tick_hit_the_same_record (chunk : Buffer)
    (code : Z) (message : string) (hs : Headers)
    (expectedBodySize : option Z) (tHeaders tEnd now : HrTime)
    (answer : UwsAnswer) (s : State)
    (first : PipelinedRequest) (rest : list PipelinedRequest) (u : UwsRef) :
  _pendingRequests s = first :: rest ->
  nextTick s = [] ->
  req_response (request (response first)) = Some u ->
  expectedBodySize <> Some 0 ->
  let s1 := final (on_body_chunk chunk true s) in
  let s2 :=
    final (on_headers code message hs expectedBodySize tHeaders tEnd s1) in
  let s3 := final (run_nextTick answer now s2) in
  (exists written,
     _pendingRequests s2 = written :: rest
     /\ key written = key first
     /\ statusCode (response written) = Some code
     /\ headers (response written) = hs)
  /\ threw (run_nextTick answer now s2) = None
  /\ _pendingRequests s3 = rest
  /\ trace s3 = trace s ++ [TryEnd u chunk (hs !! "content-length")].
Proof.
  intros Hq Hn Hu Hsize. open_state s. subst queue ticks.
  unfold on_body_chunk, on_headers, run_nextTick, body_chunk_task,
    set_nextTick, setStatus, setHeaders, terminateRequest, update_first,
    addBody, addByteCount, peek, bind, get.
  destruct expectedBodySize as [[| |]|]; [congruence| | |]; cbn;
    rewrite Hu; cbn;
    (split; [eexists; repeat split; reflexivity|]);
    destruct (tryEnd_done answer), (tryEnd_ok answer); cbn;
    repeat split; reflexivity.
Qed.

(** X13.  On an empty queue the ['headers'] listener, [setStatus],
    [setHeaders] and [terminateRequest] return and leave the state as it
    is; [addByteCount], [addBody] and the function deferred for a body
    chunk throw a [TypeError], and also leave the state as it is. *)
Theorem events_on_an_empty_queue (s : State) :
  _pendingRequests s = [] ->
  (forall code message hs expectedBodySize tHeaders tEnd,
     on_headers code message hs expectedBodySize tHeaders tEnd s = Return tt s)
  /\ (forall code message, setStatus code message s = Return tt s)
  /\ (forall hs now, setHeaders hs now s = Return tt s)
  /\ (forall now, terminateRequest now s = Return None s)
  /\ (forall count, addByteCount count s = Throw TypeError s)
  /\ (forall data answer, addBody data answer s = Throw TypeError s)
  /\ (forall chunk isLast answer now,
        body_chunk_task chunk isLast answer now s = Throw TypeError s).
Proof.
  intros Hq.
  split; [intros; apply on_headers_empty; exact Hq|].
  split; [intros; unfold setStatus, update_first, bind, get;
          rewrite Hq; reflexivity|].
  split; [intros; unfold setHeaders, update_first, bind, get;
          rewrite Hq; reflexivity|].
  split; [intros; apply terminateRequest_empty; exact Hq|].
  split; [intros; apply addByteCount_empty; exact Hq|].
  split; [intros; apply addBody_empty; exact Hq|].
  intros. apply body_chunk_task_empty. exact Hq.
Qed.

End EventSequences.

(** ** What the records keep *)

Section Records.

(** The pair [process.hrtime(start)] returns stands for the nanoseconds
    between the two readings. *)
Lemma hrtime_since_elapsed (now start : HrTime) :
  fst (hrtime_since now start) * 1000000000 + snd (hrtime_since now start)
  = elapsed_ns now start.
Proof.
  unfold hrtime_since, elapsed_ns.
  destruct (snd now - snd start <? 0); cbn [fst snd]; lia.
Qed.

(** A call that writes to the first record keeps its request, its
    callback and its start time, and the records behind it. *)
Lemma mutation_first (c : Call) (s : State) (first : PipelinedRequest)
    (rest : list PipelinedRequest) :
  mutation c = true ->
  _pendingRequests s = first :: rest ->
  exists first',
    _pendingRequests (snd (call c s)) = first' :: rest
    /\ key first' = key first
    /\ startTime (metadata (response first'))
       = startTime (metadata (response first)).
Proof.
  intros Hm Hq. destruct c; try discriminate Hm; unfold call.
  - destruct (setStatus_first code message s) as (s' & -> & Hq' & _).
    cbn. rewrite Hq', Hq. eexists. repeat split; reflexivity.
  - destruct (setHeaders_first hs now s) as (s' & -> & Hq' & _).
    cbn. rewrite Hq', Hq. eexists. repeat split; reflexivity.
  - destruct (addByteCount_first count s first rest Hq) as (s' & -> & Hq' & _).
    cbn. rewrite Hq'. eexists. repeat split; reflexivity.
  - destruct (addBody_first data answer s first rest Hq) as (Hq' & _).
    cbn [snd]. rewrite Hq'. eexists. repeat split; reflexivity.
Qed.

(** X14.  The duration [terminateRequest] writes is measured from the
    clock reading [scheduleSend] stored as [startTime]: no status,
    header or body write in between changes the [startTime] of the
    record (nor its request or callback), so the duration is the double
    [hr[0] * 1e3 + hr[1] / 1e6] of the pair [hr] that
    [process.hrtime(startTime)] returns for that reading, a pair whose
    seconds and nanoseconds add up to the nanoseconds elapsed since. *)
Theorem duration_is_time_since_startTime (calls : list Call) (tEnd : HrTime)
    (s : State) (first : PipelinedRequest) (rest : list PipelinedRequest) :
  _pendingRequests s = first :: rest ->
  Forall (fun c => mutation c = true) calls ->
  let hr := hrtime_since tEnd (startTime (metadata (response first))) in
  exists data s',
    terminateRequest tEnd (snd (run calls s)) = Return (Some data) s'
    /\ key data = key first
    /\ startTime (metadata (response data))
       = startTime (metadata (response first))
    /\ duration (metadata (response data)) = Some (milliseconds hr)
    /\ fst hr * 1000000000 + snd hr
       = elapsed_ns tEnd (startTime (metadata (response first)))
    /\ _pendingRequests s' = rest.
Proof.
  intros Hq Hcalls hr. subst hr. revert s first Hq.
  induction Hcalls as [|c later Hc _ IH]; intros s first Hq.
  - cbn [run snd].
    destruct (terminateRequest_first tEnd s first rest Hq) as (s' & Hret & Hq' & _).
    eexists _, s'. split; [exact Hret|].
    cbn. repeat split; try reflexivity; [apply hrtime_since_elapsed | exact Hq'].
  - rewrite run_cons. cbn [snd].
    destruct (mutation_first c s first rest Hc Hq) as (first' & Hq1 & Hk & Hst).
    destruct (IH _ _ Hq1) as (data & s' & Hret & Hk' & Hst' & Hd & Hns & Hq').
    exists data, s'. rewrite <- Hk, <- Hst.
    repeat split; assumption.
Qed.

Lemma pristine_fresh (req : Request) (cb : Callback) (now : HrTime) :
  pristine (fresh req cb now).
Proof. reflexivity. Qed.

Lemma Forall_tail {A} (P : A -> Prop) (l : list A) :
  Forall P l -> Forall P (tail l).
Proof.
  intros H. destruct H; [constructor | assumption].
Qed.

(** One call keeps the records behind the first as [scheduleSend] built
    them. *)
Lemma call_pristine (c : Call) (s : State) :
  Forall pristine (tail (_pendingRequests s)) ->
  Forall pristine (tail (_pendingRequests (snd (call c s)))).
Proof.
  intros Hinv.
  destruct c as [req rcb cb now | code message | hs now | count
                | data answer | now | u offset ok done | chunk]; unfold call.
  - destruct (scheduleSend_cases req rcb cb now s)
      as [(_ & _ & ->) | (_ & ->)]; cbn; [exact Hinv|].
    destruct (_pendingRequests s) as [|first rest]; cbn in *; [constructor|].
    apply Forall_app. split; [exact Hinv|].
    constructor; [apply pristine_fresh | constructor].
  - destruct (setStatus_first code message s) as (s' & -> & Hq & _).
    cbn. rewrite Hq. destruct (_pendingRequests s); exact Hinv.
  - destruct (setHeaders_first hs now s) as (s' & -> & Hq & _).
    cbn. rewrite Hq. destruct (_pendingRequests s); exact Hinv.
  - destruct (_pendingRequests s) as [|first rest] eqn:Hq.
    + rewrite (addByteCount_empty count s Hq). cbn. rewrite Hq. exact Hinv.
    + destruct (addByteCount_first count s first rest Hq) as (s' & -> & Hq' & _).
      cbn. rewrite Hq'. exact Hinv.
  - destruct (_pendingRequests s) as [|first rest] eqn:Hq.
    + rewrite (addBody_empty data answer s Hq). cbn. rewrite Hq. exact Hinv.
    + destruct (addBody_first data answer s first rest Hq) as (Hq' & _).
      cbn [snd]. rewrite Hq'. exact Hinv.
  - destruct (_pendingRequests s) as [|first rest] eqn:Hq.
    + rewrite (terminateRequest_empty now s Hq). cbn. rewrite Hq. exact Hinv.
    + destruct (terminateRequest_first now s first rest Hq) as (s' & -> & Hq' & _).
      cbn. rewrite Hq'. apply Forall_tail. exact Hinv.
  - destruct (writable_queue u offset ok done s) as (Hq & _).
    cbn [snd]. rewrite Hq. exact Hinv.
  - cbn. exact Hinv.
Qed.

(** X15.  A record is written to only while it is first in the queue:
    if the records behind the first are as [scheduleSend] built them,
    they still are after any run of calls, and the record that becomes
    first when [terminateRequest] takes one off is as [scheduleSend]
    built it (no status, no headers, a byte counter of [0]). *)
Theorem records_behind_the_first_are_untouched (calls : list Call) (s : State) :
  Forall pristine (tail (_pendingRequests s)) ->
  Forall pristine (tail (_pendingRequests (snd (run calls s))))
  /\ forall now,
       Forall pristine
         (_pendingRequests (final (terminateRequest now (snd (run calls s))))).
Proof.
  intros Hinv.
  assert (Hrun : Forall pristine (tail (_pendingRequests (snd (run calls s))))).
  { revert s Hinv. induction calls as [|c later IH]; intros s Hinv.
    - exact Hinv.
    - rewrite run_cons. cbn [snd]. apply IH, call_pristine, Hinv. }
  split; [exact Hrun|]. intros now.
  destruct (_pendingRequests (snd (run calls s))) as [|first rest] eqn:Hq.
  - rewrite (terminateRequest_empty now _ Hq). cbn. rewrite Hq. constructor.
  - destruct (terminateRequest_first now _ first rest Hq) as (s' & -> & Hq' & _).
    cbn. rewrite Hq'. exact Hrun.
Qed.

End Records.

(** ** Closing *)

Section Closing.

Lemma destroyed_app (t u : list Event) :
  destroyed (t ++ u) = destroyed t ++ destroyed u.
Proof.
  induction t as [|e t IH]; [reflexivity|].
  destruct e; cbn; rewrite IH; reflexivity.
Qed.

Lemma destroyed_abort_events (q : list PipelinedRequest) :
  destroyed (concat (map abort_events q)) = concat (map destroys q).
Proof.
  induction q as [|p q IH]; [reflexivity|].
  cbn [map concat]. rewrite destroyed_app, IH. unfold abort_events, destroys.
  destruct (body (response p)), (req_body (request (response p))); reflexivity.
Qed.

(** X16.  [close()] on a queue whose records all have a response body
    stream returns with the queue empty.  For each record in queue
    order it has called the completion callback, then destroyed the
    response body stream with the same [E_PIPELINE_ABORTED] error, then
    destroyed the request's body stream, when there is one, without an
    error.  No acknowledgement callback is called and nothing deferred
    is dropped. *)
Theorem close_aborts_and_destroys_in_order (s : State) :
  Forall has_body (_pendingRequests s) ->
  exists s',
    close s = Return tt s'
    /\ _pendingRequests s' = []
    /\ trace s' = trace s ++ concat (map abort_events (_pendingRequests s))
    /\ responded (trace s') = responded (trace s) ++ aborted (_pendingRequests s)
    /\ destroyed (trace s')
       = destroyed (trace s) ++ concat (map destroys (_pendingRequests s))
    /\ accepted (trace s') = accepted (trace s)
    /\ nextTick s' = nextTick s
    /\ uwsResponses s' = uwsResponses s.
Proof.
  intros Hq. unfold close, bind at 1, get. unfold bind.
  destruct (forEach_abort _ s Hq) as (s1 & -> & Ht & _ & Hu & Hn & _).
  cbn. eexists. split; [reflexivity|]. cbn.
  rewrite Ht, responded_app, responded_abort_events, destroyed_app,
    destroyed_abort_events, accepted_app.
  assert (Hacc : forall q, accepted (concat (map abort_events q)) = []).
  { induction q as [|p q IH]; [reflexivity|].
    cbn [map concat]. rewrite accepted_app, IH. unfold abort_events.
    destruct (body (response p)), (req_body (request (response p)));
      reflexivity. }
  rewrite Hacc, app_nil_r. repeat split; try reflexivity; assumption.
Qed.

(** The loop of [close()] stops at the first record without a response
    body stream, after that record's callback. *)
Lemma forEach_abort_stops (good : list PipelinedRequest)
    (bad : PipelinedRequest) (rest : list PipelinedRequest) (s : State) :
  Forall has_body good ->
  body (response bad) = None ->
  exists s',
    forEach abort (good ++ bad :: rest) s = Throw TypeError s'
    /\ trace s'
       = trace s ++ concat (map abort_events good)
         ++ [Responded (callback bad) (Some E_PIPELINE_ABORTED) (response bad)]
    /\ _pendingRequests s' = _pendingRequests s.
Proof.
  intros Hgood Hbad. revert s.
  induction Hgood as [|p good Hp _ IH]; intros s.
  - cbn [app forEach map concat]. unfold bind, abort, emit. rewrite Hbad.
    cbn. eexists. repeat split; reflexivity.
  - cbn [app forEach map concat]. unfold bind at 1.
    destruct (abort_with_body p s Hp) as (s1 & -> & Ht1 & Hq1 & _).
    destruct (IH s1) as (s2 & -> & Ht2 & Hq2).
    exists s2. split; [reflexivity|].
    rewrite Ht2, Ht1, Hq2, Hq1, <- !app_assoc. split; reflexivity.
Qed.

(** X17.  [close()] on a queue that holds a record without a response
    body stream throws a [TypeError] at the first such record: the
    records before it have been aborted and their streams destroyed,
    that record's callback has been called, no record behind it has been
    reached, and the queue still holds every record.  A second
    [close()] therefore calls all those callbacks a second time. *)
Theorem close_stops_at_a_record_without_body (s : State)
    (good : list PipelinedRequest) (bad : PipelinedRequest)
    (rest : list PipelinedRequest) :
  _pendingRequests s = good ++ bad :: rest ->
  Forall has_body good ->
  body (response bad) = None ->
  threw (close s) = Some TypeError
  /\ _pendingRequests (final (close s)) = _pendingRequests s
  /\ responded (trace (final (close s)))
     = responded (trace s) ++ aborted (good ++ [bad])
  /\ destroyed (trace (final (close s)))
     = destroyed (trace s) ++ concat (map destroys good)
  /\ responded (trace (final (close (final (close s)))))
     = responded (trace s) ++ aborted (good ++ [bad]) ++ aborted (good ++ [bad]).
Proof.
  intros Hq Hgood Hbad.
  assert (Hclose : forall s0,
             _pendingRequests s0 = good ++ bad :: rest ->
             threw (close s0) = Some TypeError
             /\ _pendingRequests (final (close s0)) = _pendingRequests s0
             /\ responded (trace (final (close s0)))
                = responded (trace s0) ++ aborted (good ++ [bad])
             /\ destroyed (trace (final (close s0)))
                = destroyed (trace s0) ++ concat (map destroys good)).
  { intros s0 Hq0. unfold close, bind at 1, get. unfold bind. rewrite Hq0.
    destruct (forEach_abort_stops good bad rest s0 Hgood Hbad)
      as (s1 & -> & Ht & Hq1).
    cbn. rewrite Ht, Hq1, Hq0, !responded_app, !destroyed_app,
      responded_abort_events, destroyed_abort_events.
    unfold aborted. rewrite map_app. cbn. rewrite app_nil_r.
    repeat split; reflexivity. }
  destruct (Hclose s Hq) as (Hthrew & Hq1 & Hr1 & Hd1).
  split; [exact Hthrew|]. split; [exact Hq1|].
  split; [exact Hr1|]. split; [exact Hd1|].
  rewrite Hq in Hq1.
  destruct (Hclose _ Hq1) as (_ & _ & Hr2 & _).
  rewrite Hr2, Hr1, <- app_assoc. reflexivity.
Qed.

End Closing.

(** ** The further properties at work *)

(** X1 at work: three requests on a pipeline without a limit. *)
Lemma unlimited_pipeline_admits_all_witness :
  let sends :=
    [mkSend (mkRequest 0 None None) 10%nat 20%nat (0, 100);
     mkSend (mkRequest 1 None None) 11%nat 21%nat (0, 200);
     mkSend (mkRequest 2 None None) 12%nat 22%nat (0, 300)] in
  _maxRequests (constructor 0) = 0
  /\ size (snd (run (map send_call sends) (constructor 0))) = 3
  /\ accepted (trace (snd (run (map send_call sends) (constructor 0))))
     = [20%nat; 21%nat; 22%nat].
Proof.
  intros sends.
  destruct (unlimited_pipeline_admits_all sends (constructor 0) eq_refl)
    as (_ & _ & Hacc & Hsize).
  split; [reflexivity|]. split; [rewrite Hsize | rewrite Hacc]; reflexivity.
Defined.

(** X2 at work: a pipeline of two, three requests and a termination. *)
Lemma queue_stays_within_maximum_witness :
  let calls :=
    [ScheduleSend (mkRequest 0 None None) 10%nat 20%nat (0, 100);
     ScheduleSend (mkRequest 1 None None) 11%nat 21%nat (0, 200);
     ScheduleSend (mkRequest 2 None None) 12%nat 22%nat (0, 300);
     TerminateRequest (1, 0);
     ScheduleSend (mkRequest 3 None None) 13%nat 23%nat (1, 100)] in
  (0 < _maxRequests (constructor 2)
   /\ size (constructor 2) <= _maxRequests (constructor 2))
  /\ size (snd (run calls (constructor 2))) <= 2.
Proof.
  intros calls.
  assert (Hpos : 0 < _maxRequests (constructor 2)) by reflexivity.
  assert (Hin : size (constructor 2) <= _maxRequests (constructor 2))
    by (vm_compute; discriminate).
  split; [split; assumption|].
  exact (proj1 (queue_stays_within_maximum calls (constructor 2) Hpos Hin)).
Defined.

(** X3 at work: a pipeline of two and three requests in a row. *)
Lemma admits_until_full_witness :
  let sends :=
    [mkSend (mkRequest 0 None None) 10%nat 20%nat (0, 100);
     mkSend (mkRequest 1 None None) 11%nat 21%nat (0, 200);
     mkSend (mkRequest 2 None None) 12%nat 22%nat (0, 300)] in
  (0 < _maxRequests (constructor 2)
   /\ size (constructor 2) <= _maxRequests (constructor 2))
  /\ accepted (trace (snd (run (map send_call sends) (constructor 2))))
     = [20%nat; 21%nat]
  /\ size (snd (run (map send_call sends) (constructor 2))) = 2.
Proof.
  intros sends.
  assert (Hpos : 0 < _maxRequests (constructor 2)) by reflexivity.
  assert (Hin : size (constructor 2) <= _maxRequests (constructor 2))
    by (vm_compute; discriminate).
  split; [split; assumption|].
  destruct (admits_until_full sends (constructor 2) Hpos Hin)
    as (_ & _ & Hacc & Hsize).
  split; [rewrite Hacc | rewrite Hsize]; reflexivity.
Defined.

(** X4 at work: a negative maximum never accepts, a pipeline of one
    accepts while it is empty. *)
Lemma accepting_implies_admitted_witness :
  acceptsMoreRequests (constructor 1) = true
  /\ exists s',
       scheduleSend (mkRequest 0 None None) 10%nat 20%nat (0, 100)
         (constructor 1) = Return tt s'
       /\ size s' = 1.
Proof.
  split; [reflexivity|].
  exact (accepting_implies_admitted (mkRequest 0 None None) 10%nat 20%nat
           (0, 100) (constructor 1) eq_refl).
Defined.

(** X6 at work: two chunks for a request proxied to the uWebSockets
    response [7], the second one not accepted. *)
Lemma proxied_body_is_relayed_in_order_witness :
  let first := fresh (mkRequest 0 (Some 7%nat) None) 10%nat (0, 100) in
  let s :=
    final (scheduleSend (mkRequest 0 (Some 7%nat) None) 10%nat 20%nat (0, 100)
             constructor_default) in
  let chunks :=
    [([Byte.x01; Byte.x02], mkUwsAnswer 0 true false);
     ([Byte.x03], mkUwsAnswer 2 false false)] in
  (_pendingRequests s = [first]
   /\ nextTick s = []
   /\ req_response (request (response first)) = Some 7%nat)
  /\ tried (trace (deliver chunks (0, 0) s))
     = [(7%nat, [Byte.x01; Byte.x02], None); (7%nat, [Byte.x03], None)]
  /\ pushed (trace (deliver chunks (0, 0) s)) = [].
Proof.
  intros first s chunks.
  split; [repeat split; reflexivity|].
  destruct (proxied_body_is_relayed_in_order (0, 0) chunks s first [] 7%nat
              eq_refl eq_refl eq_refl) as (Ht & Hp & _).
  split; [rewrite Ht | rewrite Hp]; reflexivity.
Defined.

(** X7 at work: two chunks for a request whose response was given the
    body stream [100]. *)
Lemma streamed_body_is_pushed_in_order_witness :
  let first :=
    with_body 100%nat (fresh (mkRequest 0 None None) 10%nat (0, 100)) in
  let s :=
    {| _maxRequests := 1000;
       _pendingRequests := [first];
       uwsResponses := ∅;
       nextTick := [];
       shifted := [];
       trace := [] |} in
  let chunks :=
    [([Byte.x01; Byte.x02], mkUwsAnswer 0 true false);
     ([Byte.x03], mkUwsAnswer 0 true false)] in
  (_pendingRequests s = [first]
   /\ nextTick s = []
   /\ req_response (request (response first)) = None
   /\ body (response first) = Some 100%nat)
  /\ pushed (trace (deliver chunks (0, 0) s))
     = [(100%nat, [Byte.x01; Byte.x02]); (100%nat, [Byte.x03])]
  /\ tried (trace (deliver chunks (0, 0) s)) = [].
Proof.
  intros first s chunks.
  split; [repeat split; reflexivity|].
  destruct (streamed_body_is_pushed_in_order (0, 0) chunks s first [] 100%nat
              eq_refl eq_refl eq_refl eq_refl) as (Ht & Hp & _).
  split; [rewrite Ht | rewrite Hp]; reflexivity.
Defined.

(** X8 at work: the first record is proxied to [7]; a chunk that is not
    accepted leaves what is kept on [9] alone. *)
Lemma addBody_keeps_other_registrations_witness :
  let first := fresh (mkRequest 0 (Some 7%nat) None) 10%nat (0, 100) in
  let s :=
    {| _maxRequests := 1000;
       _pendingRequests := [first];
       uwsResponses :=
         {[ 9%nat := {| abOffset := Some 5; onWritable := None |} ]};
       nextTick := [];
       shifted := [];
       trace := [] |} in
  let s' := final (addBody [Byte.x01] (mkUwsAnswer 40 false false) s) in
  (forall p rest,
     _pendingRequests s = p :: rest ->
     req_response (request (response p)) <> Some 9%nat)
  /\ uwsResponses s' !! 9%nat
     = Some {| abOffset := Some 5; onWritable := None |}
  /\ abOffset (uws_of s' 7%nat) = Some 40.
Proof.
  intros first s s'.
  assert (Hother : forall p rest,
             _pendingRequests s = p :: rest ->
             req_response (request (response p)) <> Some 9%nat).
  { intros p rest Hq. injection Hq as <- _. discriminate. }
  split; [exact Hother|]. split; [|reflexivity].
  etransitivity;
    [exact (addBody_keeps_other_registrations [Byte.x01]
              (mkUwsAnswer 40 false false) s 9%nat Hother)
    | reflexivity].
Defined.

(** X9 at work: four bytes written from offset [100] and not accepted,
    then two notifications. *)
Lemma notifications_retry_from_each_offset_witness :
  let data := [Byte.x01; Byte.x02; Byte.x03; Byte.x04] in
  let s :=
    final (addBody data (mkUwsAnswer 100 false false)
             (final (scheduleSend (mkRequest 0 (Some 7%nat) None) 10%nat
                       20%nat (0, 100) constructor_default))) in
  let ns := [(102, false, false); (103, true, false)] in
  uws_of s 7%nat
  = {| abOffset := Some 100;
       onWritable := Some {| wh_data := data; wh_headers := ∅ |} |}
  /\ trace (notifications 7%nat ns s)
     = trace s
       ++ [TryEnd 7%nat [Byte.x03; Byte.x04] None;
           TryEnd 7%nat [Byte.x04] None]
  /\ uws_of (notifications 7%nat ns s) 7%nat = uws_of s 7%nat.
Proof.
  intros data s ns.
  assert (Hreg : uws_of s 7%nat
                 = {| abOffset := Some 100;
                      onWritable :=
                        Some {| wh_data := data; wh_headers := ∅ |} |})
    by reflexivity.
  split; [exact Hreg|].
  destruct (notifications_retry_from_each_offset 7%nat ns s 100 _ Hreg)
    as (Hu & Ht & _).
  split; [rewrite Ht; reflexivity | exact Hu].
Defined.

(** X10 at work: a response of five bytes announced, then its first
    chunk. *)
Lemma headers_give_the_total_size_witness :
  let first := fresh (mkRequest 0 (Some 7%nat) None) 10%nat (0, 100) in
  let s :=
    final (scheduleSend (mkRequest 0 (Some 7%nat) None) 10%nat 20%nat (0, 100)
             constructor_default) in
  let hs : Headers := {[ "content-length" := "5" ]} in
  let s1 := final (on_headers 200 "OK" hs (Some 5) (0, 500) (0, 900) s) in
  (_pendingRequests s = [first]
   /\ req_response (request (response first)) = Some 7%nat
   /\ Some 5 <> Some 0)
  /\ exists s2,
       addBody [Byte.x01; Byte.x02] (mkUwsAnswer 0 true false) s1
       = Return tt s2
       /\ trace s2 = trace s ++ [TryEnd 7%nat [Byte.x01; Byte.x02] (Some "5")].
Proof.
  intros first s hs s1.
  assert (Hsize : Some 5 <> Some 0) by discriminate.
  split; [repeat split; try reflexivity; exact Hsize|].
  exact (headers_give_the_total_size 200 "OK" hs (Some 5) (0, 500) (0, 900)
           [Byte.x01; Byte.x02] (mkUwsAnswer 0 true false) s first [] 7%nat
           eq_refl eq_refl Hsize).
Defined.

(** X11 at work: the last chunk of the first response is raised, the
    headers of the second response come before the tick. *)
Lemma headers_before_the_tick_hit_the_same_record_witness :
  let first := fresh (mkRequest 0 (Some 7%nat) None) 10%nat (0, 100) in
  let second := fresh (mkRequest 1 (Some 8%nat) None) 11%nat (0, 200) in
  let s :=
    snd (run [ScheduleSend (mkRequest 0 (Some 7%nat) None) 10%nat 20%nat (0, 100);
              ScheduleSend (mkRequest 1 (Some 8%nat) None) 11%nat 21%nat (0, 200)]
           constructor_default) in
  let hs : Headers := {[ "content-length" := "9" ]} in
  let s1 := final (on_body_chunk [Byte.x01] true s) in
  let s2 := final (on_headers 404 "Not Found" hs (Some 9) (0, 500) (0, 900) s1) in
  let s3 := final (run_nextTick (mkUwsAnswer 0 true true) (1, 0) s2) in
  (_pendingRequests s = [first; second]
   /\ nextTick s = []
   /\ req_response (request (response first)) = Some 7%nat
   /\ Some 9 <> Some 0)
  /\ _pendingRequests s3 = [second]
  /\ trace s3 = trace s ++ [TryEnd 7%nat [Byte.x01] (Some "9")].
Proof.
  intros first second s hs s1 s2 s3.
  assert (Hsize : Some 9 <> Some 0) by discriminate.
  split; [repeat split; try reflexivity; exact Hsize|].
  destruct (headers_before_the_tick_hit_the_same_record [Byte.x01] 404
              "Not Found" hs (Some 9) (0, 500) (0, 900) (1, 0)
              (mkUwsAnswer 0 true true) s first [second] 7%nat
              eq_refl eq_refl eq_refl Hsize) as (_ & _ & Hq & Ht).
  split; [exact Hq | exact Ht].
Defined.

(** X13 at work on a new pipeline. *)
Lemma events_on_an_empty_queue_witness :
  _pendingRequests constructor_default = []
  /\ on_headers 200 "OK" ∅ (Some 0) (0, 500) (0, 900) constructor_default
     = Return tt constructor_default
  /\ addBody [Byte.x01] (mkUwsAnswer 0 true true) constructor_default
     = Throw TypeError constructor_default.
Proof.
  destruct (events_on_an_empty_queue constructor_default eq_refl)
    as (Hheaders & _ & _ & _ & _ & Hbody & _).
  split; [reflexivity|]. split; [apply Hheaders | apply Hbody].
Defined.

(** X14 at work: sent at 5.9 s, terminated at 7.1 s, after two writes:
    the double [1200], that is [5277655813324800 * 2^-42]. *)
Lemma duration_is_time_since_startTime_witness :
  let first := fresh (mkRequest 0 None None) 10%nat (5, 900000000) in
  let s :=
    final (scheduleSend (mkRequest 0 None None) 10%nat 20%nat (5, 900000000)
             constructor_default) in
  let calls := [SetStatus 200 "OK"; AddByteCount 3] in
  (_pendingRequests s = [first]
   /\ Forall (fun c => mutation c = true) calls)
  /\ exists data s',
       terminateRequest (7, 100000000) (snd (run calls s))
       = Return (Some data) s'
       /\ duration (metadata (response data))
          = Some (SpecFloat.S754_finite false 5277655813324800 (-42)).
Proof.
  intros first s calls.
  assert (Hcalls : Forall (fun c => mutation c = true) calls)
    by (repeat constructor).
  split; [split; [reflexivity | exact Hcalls]|].
  destruct (duration_is_time_since_startTime calls (7, 100000000) s first []
              eq_refl Hcalls)
    as (data & s' & Hret & _ & _ & Hd & _).
  exists data, s'. split; [exact Hret|]. rewrite Hd. reflexivity.
Defined.

(** X15 at work: three requests, the first written to and taken off. *)
Lemma records_behind_the_first_are_untouched_witness :
  let calls :=
    [ScheduleSend (mkRequest 0 None None) 10%nat 20%nat (0, 100);
     ScheduleSend (mkRequest 1 None None) 11%nat 21%nat (0, 200);
     SetStatus 200 "OK"; AddByteCount 3;
     ScheduleSend (mkRequest 2 None None) 12%nat 22%nat (0, 300)] in
  Forall pristine (tail (_pendingRequests (constructor 0)))
  /\ Forall pristine
       (_pendingRequests
          (final (terminateRequest (1, 0) (snd (run calls (constructor 0)))))).
Proof.
  intros calls.
  assert (Hinv : Forall pristine (tail (_pendingRequests (constructor 0))))
    by constructor.
  split; [exact Hinv|].
  exact (proj2 (records_behind_the_first_are_untouched calls (constructor 0) Hinv)
           (1, 0)).
Defined.

(** X16 at work: two records with response body streams, the second
    with a request body stream too. *)
Lemma close_aborts_and_destroys_in_order_witness :
  let a := with_body 100%nat (fresh (mkRequest 0 None None) 10%nat (0, 1)) in
  let b :=
    with_body 101%nat (fresh (mkRequest 1 None (Some 201%nat)) 11%nat (0, 2)) in
  let s :=
    {| _maxRequests := 1000;
       _pendingRequests := [a; b];
       uwsResponses := ∅;
       nextTick := [];
       shifted := [];
       trace := [] |} in
  Forall has_body (_pendingRequests s)
  /\ exists s',
       close s = Return tt s'
       /\ _pendingRequests s' = []
       /\ destroyed (trace s')
          = [(100%nat, Some E_PIPELINE_ABORTED);
             (101%nat, Some E_PIPELINE_ABORTED);
             (201%nat, None)].
Proof.
  intros a b s.
  assert (Hq : Forall has_body (_pendingRequests s))
    by (repeat constructor; eexists; reflexivity).
  split; [exact Hq|].
  destruct (close_aborts_and_destroys_in_order s Hq)
    as (s' & Hret & Hempty & _ & _ & Hd & _).
  exists s'. split; [exact Hret|]. split; [exact Hempty|].
  rewrite Hd. reflexivity.
Defined.

(** X17 at work: the second of three records has no response body
    stream. *)
Lemma close_stops_at_a_record_without_body_witness :
  let a := with_body 100%nat (fresh (mkRequest 0 None None) 10%nat (0, 1)) in
  let b := fresh (mkRequest 1 None None) 11%nat (0, 2) in
  let c := with_body 102%nat (fresh (mkRequest 2 None None) 12%nat (0, 3)) in
  let s :=
    {| _maxRequests := 1000;
       _pendingRequests := [a; b; c];
       uwsResponses := ∅;
       nextTick := [];
       shifted := [];
       trace := [] |} in
  (_pendingRequests s = [a] ++ b :: [c]
   /\ Forall has_body [a]
   /\ body (response b) = None)
  /\ threw (close s) = Some TypeError
  /\ size (final (close s)) = 3
  /\ invocations 10%nat (trace (final (close (final (close s))))) = 2%nat
  /\ invocations 12%nat (trace (final (close (final (close s))))) = 0%nat.
Proof.
  intros a b c s.
  assert (Hgood : Forall has_body [a])
    by (repeat constructor; eexists; reflexivity).
  split; [repeat split; try reflexivity; exact Hgood|].
  destruct (close_stops_at_a_record_without_body s [a] b [c]
              eq_refl Hgood eq_refl) as (Hthrew & Hq & _ & _ & Htwice).
  split; [exact Hthrew|].
  split; [unfold size; rewrite Hq; reflexivity|].
  unfold invocations. rewrite Htwice. split; reflexivity.
Defined.

(** ** More on the records and the registrations *)

Section MoreInvariants.

(** X18.  Headers replace, they are not merged: after two ['headers']
    events on the same first record (both with a body expected) the
    record has the status code, status message and header object of the
    second event and the clock reading of the second as [headersTime];
    its request, callback, start time and byte counter are untouched. *)
Theorem later_headers_replace_earlier (code1 code2 : Z)
    (message1 message2 : string) (hs1 hs2 : Headers)
    (size1 size2 : option Z) (t1 t1' t2 t2' : HrTime) (s : State)
    (first : PipelinedRequest) (rest : list PipelinedRequest) :
  _pendingRequests s = first :: rest ->
  size1 <> Some 0 ->
  size2 <> Some 0 ->
  exists written,
    _pendingRequests
      (final (on_headers code2 message2 hs2 size2 t2 t2'
                (final (on_headers code1 message1 hs1 size1 t1 t1' s))))
    = written :: rest
    /\ key written = key first
    /\ statusCode (response written) = Some code2
    /\ statusMessage (response written) = message2
    /\ headers (response written) = hs2
    /\ headersTime (metadata (response written)) = Some t2
    /\ startTime (metadata (response written))
       = startTime (metadata (response first))
    /\ bytes (metadata (response written)) = bytes (metadata (response first)).
Proof.
  intros Hq H1 H2. open_state s. subst queue.
  unfold on_headers, setStatus, setHeaders, update_first, bind, get.
  destruct size1 as [[| |]|]; [congruence| | |];
    destruct size2 as [[| |]|]; try congruence; cbn;
    eexists; repeat split; reflexivity.
Qed.

(** X19.  A record as [scheduleSend] builds it, for a request that is
    not proxied, cannot take a body: [addBody] counts the chunk and then
    throws a [TypeError] on [pipelinedRequest.body.push], the record
    has no [body].  The function deferred for the last chunk throws
    before it reaches [terminateRequest], so the record stays first in
    the queue; nothing is pushed and no callback is called. *)
Theorem body_of_an_unproxied_record_throws (chunk : Buffer) (isLast : bool)
    (answer : UwsAnswer) (now : HrTime) (s : State)
    (first : PipelinedRequest) (rest : list PipelinedRequest) :
  _pendingRequests s = first :: rest ->
  req_response (request (response first)) = None ->
  body (response first) = None ->
  let o := body_chunk_task chunk isLast answer now s in
  threw o = Some TypeError
  /\ _pendingRequests (final o)
     = with_metadata (add_bytes (Z.of_nat (length chunk))) first :: rest
  /\ trace (final o) = trace s.
Proof.
  intros Hq Hu Hb. open_state s. subst queue.
  unfold body_chunk_task, addBody, addByteCount, peek, update_first, bind, get.
  cbn. rewrite Hu. cbn. rewrite Hb. cbn. repeat split; reflexivity.
Qed.

Lemma writable_uws (u : UwsRef) (offset : Z) (ok done : bool) (s : State) :
  uwsResponses (final (writable u offset ok done s)) = uwsResponses s.
Proof.
  open_state s. unfold writable, bind, get, uws_of. cbn.
  destruct (onWritable (default uws_untouched (uwss !! u))); reflexivity.
Qed.

(** What [addBody] leaves on the uWebSockets responses: what was there,
    or that with one registration written. *)
Lemma addBody_uws (data : Buffer) (answer : UwsAnswer) (s : State) :
  uwsResponses (final (addBody data answer s)) = uwsResponses s
  \/ exists u handler,
       uwsResponses (final (addBody data answer s))
       = <[u := {| abOffset := Some (writeOffset answer);
                   onWritable := Some handler |}]> (uwsResponses s).
Proof.
  open_state s.
  unfold addBody, addByteCount, peek, update_first, bind, get. cbn.
  destruct queue as [|first rest]; cbn; [left; reflexivity|].
  destruct (req_response (request (response first))) as [u|]; cbn.
  - destruct (tryEnd_done answer), (tryEnd_ok answer); cbn;
      try (left; reflexivity).
    right. eexists u, _. rewrite insert_insert_eq. reflexivity.
  - destruct (body (response first)); left; reflexivity.
Qed.

Lemma call_complete (c : Call) (s : State) :
  map_Forall (fun _ r => complete r) (uwsResponses s) ->
  map_Forall (fun _ r => complete r) (uwsResponses (snd (call c s))).
Proof.
  intros Hinv.
  destruct c as [req rcb cb now | code message | hs now | count
                | data answer | now | u offset ok done | chunk]; unfold call.
  - destruct (scheduleSend_cases req rcb cb now s)
      as [(_ & _ & ->) | (_ & ->)]; exact Hinv.
  - destruct (setStatus_first code message s) as (s' & -> & _ & _ & Hu & _).
    cbn. rewrite Hu. exact Hinv.
  - destruct (setHeaders_first hs now s) as (s' & -> & _ & _ & Hu & _).
    cbn. rewrite Hu. exact Hinv.
  - destruct (_pendingRequests s) as [|first rest] eqn:Hq.
    + rewrite (addByteCount_empty count s Hq). exact Hinv.
    + destruct (addByteCount_first count s first rest Hq)
        as (s' & -> & _ & _ & Hu & _).
      cbn. rewrite Hu. exact Hinv.
  - cbn [snd].
    destruct (addBody_uws data answer s) as [-> | (u & handler & ->)];
      [exact Hinv|].
    apply map_Forall_insert_2; [|exact Hinv].
    split; eexists; reflexivity.
  - destruct (_pendingRequests s) as [|first rest] eqn:Hq.
    + rewrite (terminateRequest_empty now s Hq). exact Hinv.
    + destruct (terminateRequest_first now s first rest Hq)
        as (s' & -> & _ & _ & Hu & _).
      cbn. rewrite Hu. exact Hinv.
  - cbn [snd]. rewrite writable_uws. exact Hinv.
  - exact Hinv.
Qed.

(** X20.  The saved offset and the handler go together: if every
    uWebSockets response the pipeline has written to holds both, as on
    a new pipeline, which has written to none, then after any run of
    calls every one still holds both.  A writable notification that
    finds a handler therefore finds the offset it subtracts. *)
Theorem registrations_are_complete (calls : list Call) (s : State) :
  map_Forall (fun _ r => complete r) (uwsResponses s) ->
  map_Forall (fun _ r => complete r) (uwsResponses (snd (run calls s)))
  /\ forall u handler,
       onWritable (uws_of (snd (run calls s)) u) = Some handler ->
       is_Some (abOffset (uws_of (snd (run calls s)) u)).
Proof.
  intros Hinv.
  assert (Hrun : map_Forall (fun _ r => complete r)
                   (uwsResponses (snd (run calls s)))).
  { revert s Hinv. induction calls as [|c later IH]; intros s Hinv.
    - exact Hinv.
    - rewrite run_cons. cbn [snd]. apply IH, call_complete, Hinv. }
  split; [exact Hrun|]. intros u handler Hh. unfold uws_of in *.
  destruct (uwsResponses (snd (run calls s)) !! u) as [r|] eqn:Hr.
  - cbn in *. exact (proj1 (Hrun u r Hr)).
  - cbn in Hh. discriminate.
Qed.

End MoreInvariants.

(** X18 at work: an interim response, then the final one. *)
Lemma later_headers_replace_earlier_witness :
  let first := fresh (mkRequest 0 None None) 10%nat (0, 100) in
  let s :=
    final (scheduleSend (mkRequest 0 None None) 10%nat 20%nat (0, 100)
             constructor_default) in
  let hs1 : Headers := {[ "x-early" := "1" ]} in
  let hs2 : Headers := {[ "content-length" := "5" ]} in
  (_pendingRequests s = [first] /\ None <> Some 0 /\ Some 5 <> Some 0)
  /\ exists written,
       _pendingRequests
         (final (on_headers 200 "OK" hs2 (Some 5) (0, 700) (0, 800)
                   (final (on_headers 103 "Early Hints" hs1 None
                             (0, 500) (0, 600) s))))
       = [written]
       /\ statusCode (response written) = Some 200
       /\ headers (response written) !! "x-early" = None.
Proof.
  intros first s hs1 hs2.
  assert (H1 : (None : option Z) <> Some 0) by discriminate.
  assert (H2 : Some 5 <> Some 0) by discriminate.
  split; [repeat split; try reflexivity; assumption|].
  destruct (later_headers_replace_earlier 103 200 "Early Hints" "OK" hs1 hs2
              None (Some 5) (0, 500) (0, 600) (0, 700) (0, 800) s first []
              eq_refl H1 H2)
    as (written & Hq & _ & Hcode & _ & Hhs & _).
  exists written. split; [exact Hq|]. split; [exact Hcode|].
  rewrite Hhs. reflexivity.
Defined.

(** X19 at work: the last chunk for the only request of a new
    pipeline. *)
Lemma body_of_an_unproxied_record_throws_witness :
  let first := fresh (mkRequest 0 None None) 10%nat (0, 100) in
  let s :=
    final (scheduleSend (mkRequest 0 None None) 10%nat 20%nat (0, 100)
             constructor_default) in
  let o := body_chunk_task [Byte.x01; Byte.x02] true
             (mkUwsAnswer 0 true true) (1, 0) s in
  (_pendingRequests s = [first]
   /\ req_response (request (response first)) = None
   /\ body (response first) = None)
  /\ threw o = Some TypeError
  /\ size (final o) = 1.
Proof.
  intros first s o.
  split; [repeat split; reflexivity|].
  destruct (body_of_an_unproxied_record_throws [Byte.x01; Byte.x02] true
              (mkUwsAnswer 0 true true) (1, 0) s first []
              eq_refl eq_refl eq_refl) as (Hthrew & Hq & _).
  split; [exact Hthrew|]. unfold size. fold o in Hq. rewrite Hq. reflexivity.
Defined.

(** X20 at work: a chunk that is not accepted, on a new pipeline. *)
Lemma registrations_are_complete_witness :
  let calls :=
    [ScheduleSend (mkRequest 0 (Some 7%nat) None) 10%nat 20%nat (0, 100);
     AddBody [Byte.x01] (mkUwsAnswer 40 false false)] in
  map_Forall (fun _ r => complete r) (uwsResponses constructor_default)
  /\ is_Some (abOffset (uws_of (snd (run calls constructor_default)) 7%nat)).
Proof.
  intros calls.
  assert (Hinv : map_Forall (fun _ r => complete r)
                   (uwsResponses constructor_default))
    by apply map_Forall_empty.
  split; [exact Hinv|].
  destruct (registrations_are_complete calls constructor_default Hinv)
    as (_ & Hoffset).
  eapply Hoffset. reflexivity.
Defined.
